(** * Test-fixture provisioning layer (web/src/cypress/support/profile.ts)

    A shallow embedding of the Cypress support commands that provision
    users, contact methods and notification rules, together with the
    properties the specification states about them.

    The commands talk to collaborators that live outside the file: the
    [chance] random generator ([c.guid()], [c.word()], ...) and the
    Cypress gateway commands ([cy.sql], [cy.graphql2], [cy.fixture])
    with the backend behind them.  Both are taken as interfaces
    ([Chance], [Gateway]); the commands are embedded in a
    state-and-failure monad over a [World] that holds the generator
    state, the backend state and the log of gateway calls issued so
    far. *)

From Stdlib Require Import ZArith List String Ascii Bool Lia.
Import ListNotations.

Local Open Scope string_scope.
Local Open Scope Z_scope.

(* ===================================================================== *)
(** ** Data model (the [declare global] block) *)
(* ===================================================================== *)

Inductive UserRole := user | admin.

Record Profile := mkProfile {
  p_id : string;
  p_name : string;
  p_email : string;
  p_role : UserRole;
}.

Record UserOptions := mkUserOptions {
  uo_name : option string;
  uo_email : option string;
  uo_role : option UserRole;
}.

Inductive ContactMethodType := SMS | VOICE.

Record ContactMethod := mkContactMethod {
  cm_id : string;
  cm_userID : string;
  cm_name : string;
  cm_type : ContactMethodType;
  cm_value : string;
}.

Record ContactMethodOptions := mkContactMethodOptions {
  cmo_userID : option string;
  cmo_name : option string;
  cmo_type : option ContactMethodType;
  cmo_value : option string;
}.

Record NotificationRule := mkNotificationRule {
  nr_id : string;
  nr_userID : string;
  nr_contactMethodID : string;
  nr_contactMethod : ContactMethod;
  nr_delayMinutes : Z;
}.

Record NotificationRuleOptions := mkNotificationRuleOptions {
  nro_userID : option string;
  nro_delayMinutes : option Z;
  nro_contactMethodID : option string;
  nro_contactMethod : option ContactMethodOptions;
}.

(** The empty object literal [{}] at each options type. *)
Definition emptyUserOptions : UserOptions := mkUserOptions None None None.
Definition emptyContactMethodOptions : ContactMethodOptions :=
  mkContactMethodOptions None None None None.
Definition emptyNotificationRuleOptions : NotificationRuleOptions :=
  mkNotificationRuleOptions None None None None.

(* ===================================================================== *)
(** ** JavaScript truthiness of optional fields

    An optional field is [None] when the property is absent
    ([undefined]).  [!x] and [x || y] treat [undefined], the empty
    string and the number [0] alike: all three are falsy. *)
(* ===================================================================== *)

Definition string_is_empty (s : string) : bool :=
  match s with EmptyString => true | String _ _ => false end.

(** [truthy_string o] is [Some s] exactly when [o] holds a truthy
    string, that is a non-empty one. *)
Definition truthy_string (o : option string) : option string :=
  match o with
  | Some s => if string_is_empty s then None else Some s
  | None => None
  end.

(** [truthy_number o] is [Some n] exactly when [o] holds a truthy
    number, that is one different from [0]. *)
Definition truthy_number (o : option Z) : option Z :=
  match o with
  | Some n => if n =? 0 then None else Some n
  | None => None
  end.

(** [UserRole] and [ContactMethodType] are unions of non-empty string
    literals: a present value is always truthy. *)
Definition truthy_enum {A : Type} (o : option A) : option A := o.

(* ===================================================================== *)
(** ** Strings: number conversion, join, template literals *)
(* ===================================================================== *)

Definition digit_char (d : Z) : ascii := ascii_of_nat (48 + Z.to_nat d).

(** Decimal digits of a non-negative integer, most significant first,
    pushed in front of [acc]. *)
Fixpoint digits_of (fuel : nat) (n : Z) (acc : string) : string :=
  match fuel with
  | O => acc
  | S fuel' =>
      let acc' := String (digit_char (n mod 10)) acc in
      if n <? 10 then acc' else digits_of fuel' (n / 10) acc'
  end.

(** What string concatenation does to an integer operand
    (['+1763' + n]): its decimal representation.  A number below
    [2^(k+1)] has at most [k+1] decimal digits, hence the fuel. *)
Definition number_to_string (n : Z) : string :=
  if n <? 0
  then "-" ++ digits_of (S (Z.to_nat (Z.log2 (- n)))) (- n) ""
  else digits_of (S (Z.to_nat (Z.log2 n))) n "".

(** [Array.prototype.join]. *)
Fixpoint join (sep : string) (l : list string) : string :=
  match l with
  | [] => ""
  | [x] => x
  | x :: rest => x ++ sep ++ join sep rest
  end.

Definition role_to_string (r : UserRole) : string :=
  match r with user => "user" | admin => "admin" end.

(* ===================================================================== *)
(** ** The random generator [c = new Chance()] *)
(* ===================================================================== *)

(** The operations of [chance] the commands use, over a generator state
    [G].  [chance_word n] is [c.word({ length: n })], [chance_integer lo hi]
    is [c.integer({ min: lo, max: hi })] and [chance_pickone x xs] is
    [c.pickone] on the non-empty array [x :: xs]. *)
Class Chance (G : Type) := {
  chance_guid : G -> string * G;
  chance_word : nat -> G -> string * G;
  chance_email : G -> string * G;
  chance_integer : Z -> Z -> G -> Z * G;
  chance_pickone : forall {A : Type}, A -> list A -> G -> A * G;
}.

(** A syntactic e-mail shape: a non-empty local part, an [@], and a
    non-empty domain. *)
Fixpoint has_at_then_nonempty (s : string) : bool :=
  match s with
  | EmptyString => false
  | String a rest =>
      if Ascii.eqb a "@"%char then negb (string_is_empty rest)
      else has_at_then_nonempty rest
  end.

Definition is_email (s : string) : bool :=
  match s with
  | EmptyString => false
  | String a rest => negb (Ascii.eqb a "@"%char) && has_at_then_nonempty rest
  end.

(** The documented contract of the generator, as far as the properties
    below rely on it. *)
Class ChanceLaws (G : Type) `{Chance G} : Prop := {
  chance_integer_range :
    forall lo hi g, lo <= hi ->
      lo <= fst (chance_integer lo hi g) <= hi;
  chance_email_shape :
    forall g, is_email (fst (chance_email g)) = true;
}.

(* ===================================================================== *)
(** ** The gateway: [cy.fixture], [cy.sql], [cy.graphql2] *)
(* ===================================================================== *)

Record CreateUserContactMethodInput := mkCreateUserContactMethodInput {
  cmi_userID : string;
  cmi_name : string;
  cmi_type : ContactMethodType;
  cmi_value : string;
}.

Record CreateUserNotificationRuleInput := mkCreateUserNotificationRuleInput {
  nri_userID : string;
  nri_contactMethodID : string;
  nri_delayMinutes : Z;
}.

Record TargetInput := mkTargetInput {
  ti_type : string;
  ti_id : string;
}.

(** What [createUserContactMethod] answers.  The selection set asks for
    [id name type value] only; the answer need not carry a [userID]. *)
Record ContactMethodResponse := mkContactMethodResponse {
  cmr_id : string;
  cmr_userID : option string;
  cmr_name : string;
  cmr_type : ContactMethodType;
  cmr_value : string;
}.

(** What [createUserNotificationRule] answers. *)
Record NotificationRuleResponse := mkNotificationRuleResponse {
  nrr_id : string;
  nrr_userID : option string;
  nrr_delayMinutes : Z;
  nrr_contactMethodID : string;
  nrr_contactMethod : ContactMethodResponse;
}.

(** One gateway call, as recorded in the log.  The query text of each
    [cy.graphql2] call site is a constant of that site, so a call is
    identified by its operation and its variables. *)
Inductive Call :=
| CallFixture (name : string)
| CallSql (query : string)
| CallCreateUserContactMethod (input : CreateUserContactMethodInput)
| CallCreateUserNotificationRule (input : CreateUserNotificationRuleInput)
| CallContactMethodsQuery (id : string)
| CallDeleteAll (input : list TargetInput).

(** The backend reached through the gateway, over a backend state [B].
    [None] is a failed call.  Loading a fixture reads and changes
    nothing. *)
Class Gateway (B : Type) := {
  load_fixture : string -> B -> option Profile;
  exec_sql : string -> B -> option unit * B;
  exec_createUserContactMethod :
    CreateUserContactMethodInput -> B -> option ContactMethodResponse * B;
  exec_createUserNotificationRule :
    CreateUserNotificationRuleInput -> B ->
    option NotificationRuleResponse * B;
  exec_contactMethodsQuery : string -> B -> option (list string) * B;
  exec_deleteAll : list TargetInput -> B -> option unit * B;
}.

(* ===================================================================== *)
(** ** The command monad *)
(* ===================================================================== *)

Inductive Failure := FixtureLoadError | RemoteError.

(** How a command chain ends: with a value, with a failure that aborts
    the chain, or still running when the recursion budget is used up. *)
Inductive Outcome (A : Type) :=
| Done (a : A)
| Failed (e : Failure)
| OutOfFuel.
Arguments Done {A} a.
Arguments Failed {A} e.
Arguments OutOfFuel {A}.

Record World (G B : Type) := mkWorld {
  rng : G;
  backend : B;
  log : list Call;
}.
Arguments mkWorld {G B} rng backend log.
Arguments rng {G B} w.
Arguments backend {G B} w.
Arguments log {G B} w.

Definition M (G B A : Type) : Type := World G B -> Outcome A * World G B.

Definition ret {G B A : Type} (a : A) : M G B A := fun w => (Done a, w).

Definition bind {G B A C : Type} (m : M G B A) (k : A -> M G B C) : M G B C :=
  fun w =>
    match m w with
    | (Done a, w') => k a w'
    | (Failed e, w') => (Failed e, w')
    | (OutOfFuel, w') => (OutOfFuel, w')
    end.

Declare Scope cmd_scope.
Delimit Scope cmd_scope with cmd.
Notation "x <- m ;; k" := (bind m (fun x => k))
  (at level 61, m at next level, right associativity) : cmd_scope.
Local Open Scope cmd_scope.

(** [forEach] over a list, one command per element, in order. *)
Fixpoint forEach {G B A : Type} (l : list A) (f : A -> M G B unit) : M G B unit :=
  match l with
  | [] => ret tt
  | x :: rest => _ <- f x ;; forEach rest f
  end.

(** [Array.prototype.map] with an effectful callback, in order. *)
Fixpoint mapM {G B A C : Type} (f : A -> M G B C) (l : list A) : M G B (list C) :=
  match l with
  | [] => ret []
  | x :: rest => y <- f x ;; ys <- mapM f rest ;; ret (y :: ys)
  end.

(* ===================================================================== *)
(** ** The commands *)
(* ===================================================================== *)

Section Commands.

Context {G B : Type} {CH : Chance G} {GW : Gateway B}.

Local Abbreviation Cmd := (M G B).

Definition fail {A : Type} (e : Failure) : Cmd A := fun w => (Failed e, w).

Definition out_of_fuel {A : Type} : Cmd A := fun w => (OutOfFuel, w).

(** A draw from the generator. *)
Definition draw {A : Type} (f : G -> A * G) : Cmd A :=
  fun w =>
    (Done (fst (f (rng w))), mkWorld (snd (f (rng w))) (backend w) (log w)).

(** [x || d()] on an optional field: the default is evaluated, and the
    generator consulted, only when [x] is falsy. *)
Definition or_else {A : Type} (x : option A) (d : Cmd A) : Cmd A :=
  match x with
  | Some a => ret a
  | None => d
  end.

(** [cy.fixture(name)]. *)
Definition cy_fixture (name : string) : Cmd Profile :=
  fun w =>
    let w' := mkWorld (rng w) (backend w) (log w ++ [CallFixture name]) in
    match load_fixture name (backend w) with
    | Some prof => (Done prof, w')
    | None => (Failed FixtureLoadError, w')
    end.

(** A call that goes to the backend: it is logged, the backend moves to
    its next state, and a failed call fails the chain. *)
Definition remote {A : Type} (c : Call) (exec : B -> option A * B) : Cmd A :=
  fun w =>
    let w' := mkWorld (rng w) (snd (exec (backend w))) (log w ++ [c]) in
    match fst (exec (backend w)) with
    | Some a => (Done a, w')
    | None => (Failed RemoteError, w')
    end.

(** [cy.sql(query)]. *)
Definition cy_sql (query : string) : Cmd unit :=
  remote (CallSql query) (exec_sql query).

(** [cy.graphql2(mutation, { input })] at the four call sites, followed
    by the projection of the answer on the operation's field. *)
Definition cy_graphql2_createUserContactMethod
    (input : CreateUserContactMethodInput) : Cmd ContactMethodResponse :=
  remote (CallCreateUserContactMethod input)
         (exec_createUserContactMethod input).

Definition cy_graphql2_createUserNotificationRule
    (input : CreateUserNotificationRuleInput) : Cmd NotificationRuleResponse :=
  remote (CallCreateUserNotificationRule input)
         (exec_createUserNotificationRule input).

Definition cy_graphql2_contactMethods (id : string) : Cmd (list string) :=
  remote (CallContactMethodsQuery id) (exec_contactMethodsQuery id).

Definition cy_graphql2_deleteAll (input : list TargetInput) : Cmd unit :=
  remote (CallDeleteAll input) (exec_deleteAll input).

(** *** [createManyUsers] and [createUser] *)

(** The callback of [users.map]: the object literal is evaluated field
    by field, so the generator is consulted for the id first, then for
    the name and the e-mail when they are falsy. *)
Definition synthesize_profile (u : UserOptions) : Cmd Profile :=
  id <- draw chance_guid ;;
  name <- or_else (truthy_string (uo_name u)) (draw (chance_word 12)) ;;
  email <- or_else (truthy_string (uo_email u)) (draw chance_email) ;;
  role <- or_else (truthy_enum (uo_role u)) (ret user) ;;
  ret (mkProfile id name email role).

(** [`('${p.id}', '${p.name}', '${p.email}', '${p.role}')`]. *)
Definition value_tuple (p : Profile) : string :=
  "('" ++ p_id p ++ "', '" ++ p_name p ++ "', '" ++ p_email p ++ "', '"
       ++ role_to_string (p_role p) ++ "')".

Definition insert_users_query (profiles : list Profile) : string :=
  "insert into users (id, name, email, role) values"
    ++ join "," (map value_tuple profiles) ++ ";".

Definition createManyUsers (users : list UserOptions) : Cmd (list Profile) :=
  profiles <- mapM synthesize_profile users ;;
  let dbQuery := insert_users_query profiles in
  _ <- cy_sql dbQuery ;;
  ret profiles.

(** [p[0]] is [undefined] on an empty array, hence the [option]. *)
Definition createUser (u : option UserOptions) : Cmd (option Profile) :=
  let u := match u with Some u => u | None => emptyUserOptions end in
  p <- createManyUsers [u] ;;
  ret (hd_error p).

(** *** [addContactMethod] *)

(** [{ ...cm, userID: id }]. *)
Definition cm_with_userID (cm : ContactMethodOptions) (id : string)
  : ContactMethodOptions :=
  mkContactMethodOptions (Some id) (cmo_name cm) (cmo_type cm) (cmo_value cm).

(** The [then] callback: the answer with [userID] overwritten. *)
Definition stamp_contactMethod (res : ContactMethodResponse) (userID : string)
  : ContactMethod :=
  mkContactMethod (cmr_id res) userID (cmr_name res) (cmr_type res)
                  (cmr_value res).

(** [fuel] bounds the depth of the self-invocations; a call made from
    within a command gets what is left of it. *)
Fixpoint addContactMethod (fuel : nat) (cm : option ContactMethodOptions)
  : Cmd ContactMethod :=
  match fuel with
  | O => out_of_fuel
  | S fuel' =>
      let cm := match cm with
                | Some cm => cm
                | None => emptyContactMethodOptions
                end in
      match truthy_string (cmo_userID cm) with
      | None =>
          prof <- cy_fixture "profile" ;;
          addContactMethod fuel' (Some (cm_with_userID cm (p_id prof)))
      | Some userID =>
          n <- draw (chance_integer 3000000 3999999) ;;
          let newPhone := "+1763" ++ number_to_string n in
          name <- or_else (truthy_string (cmo_name cm))
                    (w <- draw (chance_word 8) ;; ret ("SM CM " ++ w)) ;;
          type <- or_else (truthy_enum (cmo_type cm))
                    (draw (chance_pickone SMS [VOICE])) ;;
          value <- or_else (truthy_string (cmo_value cm)) (ret newPhone) ;;
          res <- cy_graphql2_createUserContactMethod
                   (mkCreateUserContactMethodInput userID name type value) ;;
          ret (stamp_contactMethod res userID)
      end
  end.

(** *** [addNotificationRule] *)

(** [{ ...nr, userID: id }]. *)
Definition nr_with_userID (nr : NotificationRuleOptions) (id : string)
  : NotificationRuleOptions :=
  mkNotificationRuleOptions (Some id) (nro_delayMinutes nr)
    (nro_contactMethodID nr) (nro_contactMethod nr).

(** [{ ...nr, contactMethodID: id }]. *)
Definition nr_with_contactMethodID (nr : NotificationRuleOptions) (id : string)
  : NotificationRuleOptions :=
  mkNotificationRuleOptions (nro_userID nr) (nro_delayMinutes nr)
    (Some id) (nro_contactMethod nr).

(** [{ ...nr.contactMethod, userID: id }]; spreading [undefined] adds
    nothing. *)
Definition nested_cm_with_userID (nr : NotificationRuleOptions) (id : string)
  : ContactMethodOptions :=
  cm_with_userID
    (match nro_contactMethod nr with
     | Some cm => cm
     | None => emptyContactMethodOptions
     end) id.

(** The [then] callback: [userID] is written on the answer and on its
    embedded contact method. *)
Definition stamp_notificationRule (res : NotificationRuleResponse)
    (userID : string) : NotificationRule :=
  mkNotificationRule (nrr_id res) userID (nrr_contactMethodID res)
    (stamp_contactMethod (nrr_contactMethod res) userID)
    (nrr_delayMinutes res).

Fixpoint addNotificationRule (fuel : nat) (nr : option NotificationRuleOptions)
  : Cmd NotificationRule :=
  match fuel with
  | O => out_of_fuel
  | S fuel' =>
      let nr := match nr with
                | Some nr => nr
                | None => emptyNotificationRuleOptions
                end in
      match truthy_string (nro_userID nr) with
      | None =>
          prof <- cy_fixture "profile" ;;
          addNotificationRule fuel' (Some (nr_with_userID nr (p_id prof)))
      | Some userID =>
          match truthy_string (nro_contactMethodID nr) with
          | None =>
              cm <- addContactMethod fuel'
                      (Some (nested_cm_with_userID nr userID)) ;;
              addNotificationRule fuel'
                (Some (nr_with_contactMethodID nr (cm_id cm)))
          | Some contactMethodID =>
              delayMinutes <- or_else (truthy_number (nro_delayMinutes nr))
                                (draw (chance_integer 0 15)) ;;
              res <- cy_graphql2_createUserNotificationRule
                       (mkCreateUserNotificationRuleInput
                          userID contactMethodID delayMinutes) ;;
              ret (stamp_notificationRule res userID)
          end
      end
  end.

(** *** [clearContactMethods] *)

Definition contactMethod_target (id : string) : TargetInput :=
  mkTargetInput "contactMethod" id.

Definition clearContactMethods (id : string) : Cmd unit :=
  contactMethods <- cy_graphql2_contactMethods id ;;
  if (List.length contactMethods =? 0)%nat then ret tt
  else forEach contactMethods
         (fun cm => cy_graphql2_deleteAll [contactMethod_target cm]).

End Commands.

(* ===================================================================== *)
(** ** A counter-driven generator *)
(* ===================================================================== *)

(** A deterministic instance of [Chance], used to run the commands on
    concrete inputs: the state is a counter, every draw is computed from
    it and increments it. *)
Module CounterChance.

Definition letter (k : Z) : ascii := ascii_of_nat (97 + Z.to_nat (k mod 26)).

Fixpoint letters (n : nat) (k : Z) : string :=
  match n with
  | O => ""
  | S n' => String (letter k) (letters n' (k + 1))
  end.

Definition guid (g : Z) : string * Z := ("guid-" ++ number_to_string (Z.abs g), g + 1).

Definition word (n : nat) (g : Z) : string * Z := (letters n g, g + 1).

Definition email (g : Z) : string * Z :=
  (String "u" (letters 5 g ++ "@example.com"), g + 1).

Definition integer (lo hi : Z) (g : Z) : Z * Z :=
  (lo + g mod (hi - lo + 1), g + 1).

Definition pickone {A : Type} (x : A) (xs : list A) (g : Z) : A * Z :=
  (nth (Z.to_nat (g mod (Z.of_nat (List.length (x :: xs))))) (x :: xs) x, g + 1).

End CounterChance.

#[export] Instance counter_chance : Chance Z := {
  chance_guid := CounterChance.guid;
  chance_word := CounterChance.word;
  chance_email := CounterChance.email;
  chance_integer := CounterChance.integer;
  chance_pickone := @CounterChance.pickone;
}.

(* ===================================================================== *)
(** ** An in-memory backend *)
(* ===================================================================== *)

(** Modelled from the spec: the backend behind [cy.sql], [cy.graphql2]
    and [cy.fixture] is not part of the support file.  The store keeps
    the persisted test profile, the contact methods with their owners,
    and hands out fresh ids; the data model of the specification
    (a contact method belongs to one user, ids are assigned by the
    remote system, the cleanup mutation deletes the targeted contact
    method) is all it implements.  [st_db_up = false] makes every
    [cy.sql] call fail. *)
Module Store.

(** Modelled from the spec: the remote state, as far as the data model
    describes it. *)
Record t := mk {
  st_profile : option Profile;
  st_db_up : bool;
  st_next : Z;
  st_contactMethods : list ContactMethod;
}.

Definition fresh_id (prefix : string) (s : t) : string :=
  prefix ++ number_to_string (Z.abs (st_next s)).

Definition load_fixture (name : string) (s : t) : option Profile :=
  if String.eqb name "profile" then st_profile s else None.

Definition exec_sql (query : string) (s : t) : option unit * t :=
  (if st_db_up s then Some tt else None, s).

Definition exec_createUserContactMethod (input : CreateUserContactMethodInput)
    (s : t) : option ContactMethodResponse * t :=
  let id := fresh_id "cm-" s in
  (Some (mkContactMethodResponse id None (cmi_name input) (cmi_type input)
           (cmi_value input)),
   mk (st_profile s) (st_db_up s) (st_next s + 1)
      (st_contactMethods s
         ++ [mkContactMethod id (cmi_userID input) (cmi_name input)
               (cmi_type input) (cmi_value input)])%list).

Definition find_contactMethod (id : string) (s : t) : option ContactMethod :=
  find (fun cm => String.eqb (cm_id cm) id) (st_contactMethods s).

Definition exec_createUserNotificationRule
    (input : CreateUserNotificationRuleInput) (s : t)
  : option NotificationRuleResponse * t :=
  match find_contactMethod (nri_contactMethodID input) s with
  | Some cm =>
      (Some (mkNotificationRuleResponse (fresh_id "nr-" s) None
               (nri_delayMinutes input) (nri_contactMethodID input)
               (mkContactMethodResponse (cm_id cm) None (cm_name cm)
                  (cm_type cm) (cm_value cm))),
       mk (st_profile s) (st_db_up s) (st_next s + 1) (st_contactMethods s))
  | None => (None, s)
  end.

Definition owned_by (userID : string) (cm : ContactMethod) : bool :=
  String.eqb (cm_userID cm) userID.

(** Modelled from the spec: the query lists the ids of the contact
    methods owned by the user. *)
Definition exec_contactMethodsQuery (userID : string) (s : t)
  : option (list string) * t :=
  (Some (map cm_id (filter (owned_by userID) (st_contactMethods s))), s).

Definition targeted (input : list TargetInput) (cm : ContactMethod) : bool :=
  existsb (fun ti => String.eqb (ti_type ti) "contactMethod"
                     && String.eqb (ti_id ti) (cm_id cm)) input.

(** Modelled from the spec: the delete-all mutation removes the
    targeted contact methods. *)
Definition exec_deleteAll (input : list TargetInput) (s : t)
  : option unit * t :=
  (Some tt,
   mk (st_profile s) (st_db_up s) (st_next s)
      (filter (fun cm => negb (targeted input cm)) (st_contactMethods s))).

End Store.

#[export] Instance store_gateway : Gateway Store.t := {
  load_fixture := Store.load_fixture;
  exec_sql := Store.exec_sql;
  exec_createUserContactMethod := Store.exec_createUserContactMethod;
  exec_createUserNotificationRule := Store.exec_createUserNotificationRule;
  exec_contactMethodsQuery := Store.exec_contactMethodsQuery;
  exec_deleteAll := Store.exec_deleteAll;
}.

(** The concrete worlds the examples run in. *)
Definition test_profile : Profile :=
  mkProfile "profile-id" "Test User" "test@example.com" user.

Definition demo_store : Store.t := Store.mk (Some test_profile) true 1 [].

Definition demo_world (seed : Z) : World Z Store.t := mkWorld seed demo_store [].

Definition db_down_world (seed : Z) : World Z Store.t :=
  mkWorld seed (Store.mk (Some test_profile) false 1 []) [].

(** A world in which the test user already owns the contact method
    ["cm-1"]. *)
Definition work_phone : ContactMethod :=
  mkContactMethod "cm-1" "profile-id" "SM CM work" SMS "+17633000001".

Definition world_with_contactMethod (seed : Z) : World Z Store.t :=
  mkWorld seed (Store.mk (Some test_profile) true 2 [work_phone]) [].

(** A world whose persisted test profile has the empty string as id. *)
Definition empty_id_profile : Profile :=
  mkProfile "" "Test User" "test@example.com" user.

Definition empty_id_world (seed : Z) : World Z Store.t :=
  mkWorld seed (Store.mk (Some empty_id_profile) true 1 []) [].

(** A gateway whose backend answers every contact-method creation with
    the empty string as id, and has nothing else to say. *)
Inductive BlankIds := blank_ids.

#[export] Instance blank_id_gateway : Gateway BlankIds := {
  load_fixture := fun _ _ => Some test_profile;
  exec_sql := fun _ b => (None, b);
  exec_createUserContactMethod := fun i b =>
    (Some (mkContactMethodResponse "" None (cmi_name i) (cmi_type i)
             (cmi_value i)), b);
  exec_createUserNotificationRule := fun _ b => (None, b);
  exec_contactMethodsQuery := fun _ b => (None, b);
  exec_deleteAll := fun _ b => (None, b);
}.

Definition blank_id_world (seed : Z) : World Z BlankIds :=
  mkWorld seed blank_ids [].

(* ===================================================================== *)
(** ** Vocabulary of the properties *)
(* ===================================================================== *)

Fixpoint all_digits (s : string) : bool :=
  match s with
  | EmptyString => true
  | String a rest =>
      (48 <=? nat_of_ascii a)%nat && (nat_of_ascii a <=? 57)%nat
      && all_digits rest
  end.

(** A phone-number shape: a [+] followed by digits, at least one. *)
Definition is_phone (s : string) : bool :=
  match s with
  | String a rest =>
      Ascii.eqb a "+"%char && negb (string_is_empty rest) && all_digits rest
  | EmptyString => false
  end.

(** The dependencies [addNotificationRule] still has to resolve. *)
Definition missing_dependencies (nr : NotificationRuleOptions) : nat :=
  ((match truthy_string (nro_userID nr) with Some _ => 0 | None => 1 end)
   + (match truthy_string (nro_contactMethodID nr) with
      | Some _ => 0
      | None => 1
      end))%nat.

Definition missing_userID (cm : ContactMethodOptions) : nat :=
  match truthy_string (cmo_userID cm) with Some _ => 0%nat | None => 1%nat end.

Section Vocabulary.

Context {G B : Type} {CH : Chance G} {GW : Gateway B}.

(** [fills u p]: profile [p] is options [u] completed by the generator.
    A name or e-mail that is present and non-empty is kept; an absent or
    empty one is a generated word or e-mail; the role is kept or
    defaults to [user]; the id is a generated guid. *)
Definition fills (u : UserOptions) (p : Profile) : Prop :=
  (exists g : G, p_id p = fst (chance_guid g))
  /\ (forall s, uo_name u = Some s -> s <> "" -> p_name p = s)
  /\ (truthy_string (uo_name u) = None ->
      exists g : G, p_name p = fst (chance_word 12 g))
  /\ (forall s, uo_email u = Some s -> s <> "" -> p_email p = s)
  /\ (truthy_string (uo_email u) = None ->
      exists g : G, p_email p = fst (chance_email g))
  /\ (forall r, uo_role u = Some r -> p_role p = r)
  /\ (uo_role u = None -> p_role p = user).

(** The profiles [users.map] builds from the generator state of [w]. *)
Definition synthesized_profiles (users : list UserOptions) (w : World G B)
  : list Profile :=
  match fst (mapM synthesize_profile users w) with
  | Done ps => ps
  | _ => []
  end.

(** The [userID] a call of [addNotificationRule] works with: the one of
    the options when it is truthy, the id of the persisted test profile
    otherwise. *)
Definition resolved_userID (nr : option NotificationRuleOptions)
    (w : World G B) : option string :=
  let nr := match nr with
            | Some nr => nr
            | None => emptyNotificationRuleOptions
            end in
  match truthy_string (nro_userID nr) with
  | Some userID => Some userID
  | None => option_map p_id (load_fixture "profile" (backend w))
  end.

(** What a gateway call issued by [addNotificationRule] looks like when
    it works for user [uid] and was given the truthy contact method id
    [cmid] (or none). *)
Definition rule_call_ok (uid : string) (cmid : option string) (c : Call)
  : Prop :=
  match c with
  | CallFixture name => name = "profile"
  | CallCreateUserContactMethod i => cmi_userID i = uid /\ cmid = None
  | CallCreateUserNotificationRule i =>
      nri_userID i = uid
      /\ (forall id, cmid = Some id -> nri_contactMethodID i = id)
  | _ => False
  end.

(** A synthesized phone value: the prefix and the decimal digits of a
    number of the range the generator is asked for. *)
Definition synthesized_phone (s : string) : Prop :=
  exists n, 3000000 <= n <= 3999999 /\ s = "+1763" ++ number_to_string n.

(** What a gateway call issued by [addContactMethod] looks like when the
    options carry the truthy value [value] (or none). *)
Definition contact_call_ok (value : option string) (c : Call) : Prop :=
  match c with
  | CallFixture name => name = "profile"
  | CallCreateUserContactMethod i =>
      match value with
      | Some v => cmi_value i = v
      | None => synthesized_phone (cmi_value i)
      end
  | _ => False
  end.

(** The call [forEach] issues for the contact method [cm]. *)
Definition delete_call (cm : string) : Call :=
  CallDeleteAll [contactMethod_target cm].

End Vocabulary.

(* ===================================================================== *)
(** ** [resetProfile] *)
(* ===================================================================== *)

(** The variables of the [updateUser] mutation. *)
Record UpdateUserInput := mkUpdateUserInput {
  uui_id : string;
  uui_name : string;
  uui_email : string;
  uui_role : UserRole;
}.

(** The backend's answer to the [updateUser] mutation; [None] is a
    failed call. *)
Class UserGateway (B : Type) := {
  exec_updateUser : UpdateUserInput -> B -> option unit * B;
}.

(** The world [resetProfile] runs in: the world of the other commands,
    and the [updateUser] mutations issued so far. *)
Record ResetWorld (G B : Type) := mkResetWorld {
  rw_world : World G B;
  rw_updates : list UpdateUserInput;
}.
Arguments mkResetWorld {G B} rw_world rw_updates.
Arguments rw_world {G B} r.
Arguments rw_updates {G B} r.

Section Reset.

Context {G B : Type} {GW : Gateway B} {UG : UserGateway B}.

(** [.graphql2(mutation, { input })] with the [updateUser] mutation: the
    call is recorded, the backend moves on, a failed call fails the
    chain. *)
Definition cy_graphql2_updateUser (input : UpdateUserInput)
    (rw : ResetWorld G B) : Outcome unit * ResetWorld G B :=
  let w := rw_world rw in
  let rw' := mkResetWorld
               (mkWorld (rng w) (snd (exec_updateUser input (backend w)))
                  (log w))
               (rw_updates rw ++ [input]) in
  match fst (exec_updateUser input (backend w)) with
  | Some _ => (Done tt, rw')
  | None => (Failed RemoteError, rw')
  end.

(** [{ id: prof.id, name: prof.name, email: prof.email, role: prof.role }]. *)
Definition update_input (prof : Profile) : UpdateUserInput :=
  mkUpdateUserInput (p_id prof) (p_name prof) (p_email prof) (p_role prof).

(** [prof] is a profile object or [undefined]; an object is truthy
    whatever its fields hold.  [fuel] bounds the depth of the
    self-invocation through [then(resetProfile)]. *)
Fixpoint resetProfile (fuel : nat) (prof : option Profile)
    (rw : ResetWorld G B) : Outcome unit * ResetWorld G B :=
  match fuel with
  | O => (OutOfFuel, rw)
  | S fuel' =>
      match prof with
      | None =>
          match cy_fixture "profile" (rw_world rw) with
          | (Done p, w') =>
              resetProfile fuel' (Some p) (mkResetWorld w' (rw_updates rw))
          | (Failed e, w') => (Failed e, mkResetWorld w' (rw_updates rw))
          | (OutOfFuel, w') => (OutOfFuel, mkResetWorld w' (rw_updates rw))
          end
      | Some prof =>
          match clearContactMethods (p_id prof) (rw_world rw) with
          | (Done _, w') =>
              cy_graphql2_updateUser (update_input prof)
                (mkResetWorld w' (rw_updates rw))
          | (Failed e, w') => (Failed e, mkResetWorld w' (rw_updates rw))
          | (OutOfFuel, w') => (OutOfFuel, mkResetWorld w' (rw_updates rw))
          end
      end
  end.

End Reset.

(** On the in-memory backend the update is accepted while the database
    is up; the store keeps no user table, so it changes nothing. *)
#[export] Instance store_user_gateway : UserGateway Store.t := {
  exec_updateUser := fun _ s =>
    (if Store.st_db_up s then Some tt else None, s);
}.

(* ===================================================================== *)
(** ** The mock data of [MockServicesList]
    (web/src/app/services/MockServicesList.js) *)
(* ===================================================================== *)

(** The two further operations of [chance] the mock list uses:
    [chance_word_with len cap] is [c.word({ length: len, capitalize: cap })],
    with [len = None] when no length is given, and [chance_sentence] is
    [c.sentence()]. *)
Class ChanceText (G : Type) := {
  chance_word_with : option nat -> bool -> G -> string * G;
  chance_sentence : G -> string * G;
}.

(** The documented contract: a word asked for with a length has that
    length. *)
Class ChanceTextLaws (G : Type) `{ChanceText G} : Prop := {
  chance_word_length :
    forall n cap g,
      String.length (fst (chance_word_with (Some n) cap g)) = n;
}.

Record ServiceLabel := mkServiceLabel {
  label_key : string;
  label_value : string;
}.

(** [label] is a label object or [null]. *)
Record MockService := mkMockService {
  svc_name : string;
  svc_description : string;
  svc_label : option ServiceLabel;
}.

Definition labelKey1 : string := "Measurement".
Definition labelKey2 : string := "Platform Engineering".
Definition labelKey3 : string := "ENI/ENO".

Section MockServices.

Context {G : Type} {CH : Chance G} {CT : ChanceText G}.

(** [c.word({ capitalize: true }) + ' ' + c.word({ capitalize: true })]. *)
Definition mock_name (g : G) : string * G :=
  let r1 := chance_word_with None true g in
  let r2 := chance_word_with None true (snd r1) in
  (fst r1 ++ " " ++ fst r2, snd r2).

(** [c.word({ length: c.integer({ min: 4, max: 7 }), capitalize: true })]:
    the length is drawn first. *)
Definition mock_label_value (g : G) : string * G :=
  let r1 := chance_integer 4 7 g in
  chance_word_with (Some (Z.to_nat (fst r1))) true (snd r1).

(** The object pushed by the first three loops, for the label key of
    the loop: name, description, then the label. *)
Definition labelled_service (key : string) (g : G) : MockService * G :=
  let rn := mock_name g in
  let rd := chance_sentence (snd rn) in
  let rv := mock_label_value (snd rd) in
  (mkMockService (fst rn) (fst rd) (Some (mkServiceLabel key (fst rv))),
   snd rv).

(** The object pushed by the fourth loop: [label: null]. *)
Definition unlabelled_service (g : G) : MockService * G :=
  let rn := mock_name g in
  let rd := chance_sentence (snd rn) in
  (mkMockService (fst rn) (fst rd) None, snd rd).

(** [for (let i = 0; i < n; i++) services.push(body)]. *)
Fixpoint push_times (n : nat) (body : G -> MockService * G)
    (services : list MockService) (g : G) : list MockService * G :=
  match n with
  | O => (services, g)
  | S n' =>
      let r := body g in
      push_times n' body (services ++ [fst r])%list (snd r)
  end.

Record MockData := mkMockData {
  services1 : list MockService;
  services2 : list MockService;
  services3 : list MockService;
  services4 : list MockService;
}.

(** The four loops at the head of the component, in order. *)
Definition mock_services (g : G) : MockData * G :=
  let r1 := push_times 5 (labelled_service labelKey1) [] g in
  let r2 := push_times 3 (labelled_service labelKey2) [] (snd r1) in
  let r3 := push_times 4 (labelled_service labelKey3) [] (snd r2) in
  let r4 := push_times 5 unlabelled_service [] (snd r3) in
  (mkMockData (fst r1) (fst r2) (fst r3) (fst r4), snd r4).

(** What one [ListItem] shows: the two text lines, and the chip with the
    label value when [service.label] is truthy. *)
Record ListItemView := mkListItemView {
  item_primary : string;
  item_secondary : string;
  item_chip : option string;
}.

Definition list_item (service : MockService) : ListItemView :=
  mkListItemView (svc_name service) (svc_description service)
    (match svc_label service with
     | Some l => Some (label_value l)
     | None => None
     end).

(** The four cards of the page: heading and list items. *)
Definition rendered_groups (d : MockData)
  : list (string * list ListItemView) :=
  [(labelKey1, map list_item (services1 d));
   (labelKey2, map list_item (services2 d));
   (labelKey3, map list_item (services3 d));
   ("No Labels", map list_item (services4 d))].

End MockServices.

Module CounterChanceText.

Definition word_with (len : option nat) (cap : bool) (g : Z) : string * Z :=
  (CounterChance.letters (match len with Some n => n | None => 5%nat end) g,
   g + 1).

Definition sentence (g : Z) : string * Z :=
  (CounterChance.letters 6 g ++ " " ++ CounterChance.letters 4 (g + 6) ++ ".",
   g + 1).

End CounterChanceText.

#[export] Instance counter_chance_text : ChanceText Z := {
  chance_word_with := CounterChanceText.word_with;
  chance_sentence := CounterChanceText.sentence;
}.

(** A gateway with nothing behind it: no fixture, every call fails. *)
#[export] Instance offline_gateway : Gateway unit := {
  load_fixture := fun _ _ => None;
  exec_sql := fun _ b => (None, b);
  exec_createUserContactMethod := fun _ b => (None, b);
  exec_createUserNotificationRule := fun _ b => (None, b);
  exec_contactMethodsQuery := fun _ b => (None, b);
  exec_deleteAll := fun _ b => (None, b);
}.

#[export] Instance offline_user_gateway : UserGateway unit := {
  exec_updateUser := fun _ b => (None, b);
}.

Definition offline_world (seed : Z) : World Z unit := mkWorld seed tt [].

(* ===================================================================== *)
(** ** Further vocabulary *)
(* ===================================================================== *)

Section CallShapes.

Context {G B : Type} {CH : Chance G} {GW : Gateway B}.

(** The [userID] a call of [addContactMethod] works with. *)
Definition resolved_contact_userID (cm : option ContactMethodOptions)
    (w : World G B) : option string :=
  let cm := match cm with
            | Some cm => cm
            | None => emptyContactMethodOptions
            end in
  match truthy_string (cmo_userID cm) with
  | Some userID => Some userID
  | None => option_map p_id (load_fixture "profile" (backend w))
  end.

(** How the options [cm] show in the input of a creation mutation:
    truthy fields as they are, the others from the generator. *)
Definition contact_input_from (cm : ContactMethodOptions)
    (i : CreateUserContactMethodInput) : Prop :=
  match truthy_string (cmo_name cm) with
  | Some s => cmi_name i = s
  | None => exists g : G, cmi_name i = "SM CM " ++ fst (chance_word 8 g)
  end
  /\ match cmo_type cm with
     | Some t => cmi_type i = t
     | None => exists g : G, cmi_type i = fst (chance_pickone SMS [VOICE] g)
     end
  /\ match truthy_string (cmo_value cm) with
     | Some v => cmi_value i = v
     | None =>
         exists g : G,
           cmi_value i
           = "+1763"
               ++ number_to_string (fst (chance_integer 3000000 3999999 g))
     end.

(** The gateway calls [addContactMethod] may issue for the options
    [cm]: a fixture load only while the [userID] is missing, and
    creation mutations built from [cm]. *)
Definition contact_call_shape (cm : ContactMethodOptions) (c : Call)
  : Prop :=
  match c with
  | CallFixture name =>
      name = "profile" /\ truthy_string (cmo_userID cm) = None
  | CallCreateUserContactMethod i => contact_input_from cm i
  | _ => False
  end.

(** The gateway calls [addNotificationRule] may issue for the options
    [nr]: a fixture load only while the [userID] is missing, a
    contact-method creation only while the [contactMethodID] is missing
    and built from the nested options, and rule creations with the
    truthy delay of the options or a draw. *)
Definition rule_call_shape (nr : NotificationRuleOptions) (c : Call)
  : Prop :=
  match c with
  | CallFixture name =>
      name = "profile" /\ truthy_string (nro_userID nr) = None
  | CallCreateUserContactMethod i =>
      truthy_string (nro_contactMethodID nr) = None
      /\ contact_input_from
           (match nro_contactMethod nr with
            | Some cm => cm
            | None => emptyContactMethodOptions
            end) i
  | CallCreateUserNotificationRule i =>
      match truthy_number (nro_delayMinutes nr) with
      | Some d => nri_delayMinutes i = d
      | None => exists g : G, nri_delayMinutes i = fst (chance_integer 0 15 g)
      end
  | _ => False
  end.

End CallShapes.

(* ===================================================================== *)
(** ** Strings and numbers *)
(* ===================================================================== *)

Lemma truthy_string_Some (o : option string) (s : string) :
  truthy_string o = Some s -> o = Some s /\ s <> "".
Proof.
  destruct o as [t|]; simpl; [|discriminate].
  destruct t; simpl; intros E; inversion E; subst.
  split; [reflexivity | discriminate].
Qed.

Lemma truthy_string_nonempty (s : string) :
  s <> "" -> truthy_string (Some s) = Some s.
Proof. destruct s; simpl; [congruence | reflexivity]. Qed.

Lemma truthy_string_idem (o : option string) (s : string) :
  truthy_string o = Some s -> truthy_string (Some s) = Some s.
Proof.
  intros E. apply truthy_string_Some in E.
  apply truthy_string_nonempty, E.
Qed.

Lemma digit_char_is_digit (d : Z) :
  0 <= d < 10 ->
  ((48 <=? nat_of_ascii (digit_char d))%nat
   && (nat_of_ascii (digit_char d) <=? 57)%nat)%bool = true.
Proof.
  intros Hd.
  assert (Hcases : d = 0 \/ d = 1 \/ d = 2 \/ d = 3 \/ d = 4 \/ d = 5
                   \/ d = 6 \/ d = 7 \/ d = 8 \/ d = 9) by lia.
  repeat (destruct Hcases as [-> | Hcases]; [reflexivity|]).
  subst d. reflexivity.
Qed.

Lemma digits_of_all_digits (fuel : nat) :
  forall n acc, 0 <= n -> all_digits acc = true ->
    all_digits (digits_of fuel n acc) = true.
Proof.
  induction fuel as [|fuel IH]; intros n acc Hn Hacc; cbn [digits_of].
  - exact Hacc.
  - assert (Hd : all_digits (String (digit_char (n mod 10)) acc) = true).
    { cbn [all_digits]. rewrite Hacc, Bool.andb_true_r.
      apply digit_char_is_digit. apply Z.mod_pos_bound. lia. }
    destruct (n <? 10).
    + exact Hd.
    + apply IH; [apply Z.div_pos; lia | exact Hd].
Qed.

(** A number with exactly [S k] decimal digits is printed with [S k]
    characters, given fuel for them. *)
Lemma digits_of_length (k : nat) :
  forall fuel n acc,
    (k < fuel)%nat -> 10 ^ Z.of_nat k <= n < 10 ^ Z.of_nat (S k) ->
    String.length (digits_of fuel n acc) = (S k + String.length acc)%nat.
Proof.
  induction k as [|k IH]; intros fuel n acc Hf Hn.
  - destruct fuel as [|fuel]; [lia|]. cbn [digits_of].
    change (10 ^ Z.of_nat 1) with 10 in Hn.
    destruct (Z.ltb_spec n 10); [reflexivity | lia].
  - destruct fuel as [|fuel]; [lia|]. cbn [digits_of].
    assert (H10 : 10 ^ Z.of_nat (S k) = 10 * 10 ^ Z.of_nat k).
    { rewrite Nat2Z.inj_succ, Z.pow_succ_r by lia. reflexivity. }
    assert (H100 : 10 ^ Z.of_nat (S (S k)) = 10 * 10 ^ Z.of_nat (S k)).
    { rewrite (Nat2Z.inj_succ (S k)), Z.pow_succ_r by lia. reflexivity. }
    assert (Hpos : 0 < 10 ^ Z.of_nat k) by (apply Z.pow_pos_nonneg; lia).
    destruct (Z.ltb_spec n 10) as [Hlt|Hge]; [lia|].
    rewrite (IH fuel (n / 10)).
    + cbn [String.length]. lia.
    + lia.
    + split.
      * apply Z.div_le_lower_bound; lia.
      * apply Z.div_lt_upper_bound; lia.
Qed.

Lemma seven_digits (n : Z) :
  3000000 <= n <= 3999999 ->
  String.length (number_to_string n) = 7%nat
  /\ all_digits (number_to_string n) = true.
Proof.
  intros Hn. unfold number_to_string.
  destruct (Z.ltb_spec n 0) as [Hneg|_]; [lia|].
  assert (Hlog : 21 <= Z.log2 n).
  { change 21 with (Z.log2 2097152). apply Z.log2_le_mono. lia. }
  split.
  - rewrite (digits_of_length 6); [reflexivity | lia |].
    change (10 ^ Z.of_nat 6) with 1000000.
    change (10 ^ Z.of_nat 7) with 10000000. lia.
  - apply digits_of_all_digits; [lia | reflexivity].
Qed.

Lemma synthesized_phone_shape (s : string) :
  synthesized_phone s ->
  String.length s = 12%nat /\ is_phone s = true.
Proof.
  intros (n & Hn & ->).
  destruct (seven_digits n Hn) as [Hlen Hdig].
  split.
  - cbn [append String.length]. rewrite Hlen. reflexivity.
  - cbn [append is_phone]. exact Hdig.
Qed.

(* ===================================================================== *)
(** ** Running the gateway and the generator *)
(* ===================================================================== *)

Section Properties.

Context {G B : Type} {CH : Chance G} {GW : Gateway B}.

Lemma remote_run {A : Type} (c : Call) (exec : B -> option A * B)
    (w : World G B) :
  remote (G := G) c exec w =
  (match fst (exec (backend w)) with
   | Some a => Done a
   | None => Failed RemoteError
   end,
   mkWorld (rng w) (snd (exec (backend w))) (log w ++ [c])).
Proof.
  unfold remote. destruct (fst (exec (backend w))); reflexivity.
Qed.

Lemma cy_fixture_run (name : string) (w : World G B) :
  cy_fixture name w =
  (match load_fixture name (backend w) with
   | Some prof => Done prof
   | None => Failed FixtureLoadError
   end,
   mkWorld (rng w) (backend w) (log w ++ [CallFixture name])).
Proof.
  unfold cy_fixture. destruct (load_fixture name (backend w)); reflexivity.
Qed.

Lemma fills_intro (u : UserOptions) (id name email : string) (role : UserRole) :
  (exists g : G, id = fst (chance_guid g)) ->
  match truthy_string (uo_name u) with
  | Some s => name = s
  | None => exists g : G, name = fst (chance_word 12 g)
  end ->
  match truthy_string (uo_email u) with
  | Some s => email = s
  | None => exists g : G, email = fst (chance_email g)
  end ->
  match uo_role u with Some r => role = r | None => role = user end ->
  fills u (mkProfile id name email role).
Proof.
  intros Hid Hname Hemail Hrole. unfold fills; cbn.
  split; [exact Hid|].
  split.
  { intros s Hs Hne. rewrite Hs, (truthy_string_nonempty s Hne) in Hname.
    exact Hname. }
  split.
  { intros Hn. rewrite Hn in Hname. exact Hname. }
  split.
  { intros s Hs Hne. rewrite Hs, (truthy_string_nonempty s Hne) in Hemail.
    exact Hemail. }
  split.
  { intros Hn. rewrite Hn in Hemail. exact Hemail. }
  split.
  { intros r Hr. rewrite Hr in Hrole. exact Hrole. }
  intros Hr. rewrite Hr in Hrole. exact Hrole.
Qed.

(** The callback of [users.map] never fails, touches neither the
    backend nor the log, and completes its argument. *)
Lemma synthesize_profile_run (u : UserOptions) (w : World G B) :
  exists p g',
    synthesize_profile u w = (Done p, mkWorld g' (backend w) (log w))
    /\ fills u p
    /\ p_id p = fst (chance_guid (rng w)).
Proof.
  unfold synthesize_profile, bind, draw, or_else, ret, truthy_enum.
  cbn [rng backend log].
  destruct (truthy_string (uo_name u)) as [name|] eqn:En;
    destruct (truthy_string (uo_email u)) as [email|] eqn:Ee;
    destruct (uo_role u) as [role|] eqn:Er;
    cbn [rng backend log];
    (do 2 eexists; split; [reflexivity|]);
    (split; [|reflexivity]);
    apply fills_intro; rewrite ?En, ?Ee, ?Er; eauto.
Qed.

Lemma mapM_synthesize_profile_run (users : list UserOptions) :
  forall w : World G B,
  exists ps g',
    mapM synthesize_profile users w
    = (Done ps, mkWorld g' (backend w) (log w))
    /\ Forall2 fills users ps.
Proof.
  induction users as [|u rest IH]; intros w.
  - exists [], (rng w). split; [destruct w; reflexivity | constructor].
  - destruct (synthesize_profile_run u w) as (p & g1 & Ep & Hp & _).
    destruct (IH (mkWorld g1 (backend w) (log w))) as (ps & g2 & Eps & Hps).
    exists (p :: ps), g2. split.
    + cbn [mapM]. unfold bind at 1. rewrite Ep.
      unfold bind at 1. rewrite Eps. reflexivity.
    + constructor; assumption.
Qed.

(** [createManyUsers] in one equation: the profiles are synthesized,
    one [cy.sql] call carries the insert statement built from them, and
    the outcome is the profiles or the failure of that call. *)
Lemma createManyUsers_run (users : list UserOptions) (w : World G B) :
  exists ps g',
    Forall2 fills users ps
    /\ synthesized_profiles users w = ps
    /\ createManyUsers users w
       = (match fst (exec_sql (insert_users_query ps) (backend w)) with
          | Some _ => Done ps
          | None => Failed RemoteError
          end,
          mkWorld g' (snd (exec_sql (insert_users_query ps) (backend w)))
                  (log w ++ [CallSql (insert_users_query ps)])).
Proof.
  destruct (mapM_synthesize_profile_run users w) as (ps & g' & Eps & Hps).
  exists ps, g'. split; [exact Hps|]. split.
  { unfold synthesized_profiles. rewrite Eps. reflexivity. }
  unfold createManyUsers, bind. rewrite Eps.
  unfold cy_sql. rewrite remote_run. cbn [backend rng log].
  destruct (fst (exec_sql (insert_users_query ps) (backend w)));
    reflexivity.
Qed.

Lemma createUser_run (u : option UserOptions) (w : World G B) :
  exists p g',
    fills (match u with Some u => u | None => emptyUserOptions end) p
    /\ p_id p = fst (chance_guid (rng w))
    /\ createUser u w
       = (match fst (exec_sql (insert_users_query [p]) (backend w)) with
          | Some _ => Done (Some p)
          | None => Failed RemoteError
          end,
          mkWorld g' (snd (exec_sql (insert_users_query [p]) (backend w)))
                  (log w ++ [CallSql (insert_users_query [p])])).
Proof.
  set (opts := match u with Some u => u | None => emptyUserOptions end).
  destruct (synthesize_profile_run opts w) as (p & g' & Ep & Hp & Hid).
  exists p, g'. split; [exact Hp|]. split; [exact Hid|].
  unfold createUser. fold opts.
  unfold createManyUsers, bind. cbn [mapM]. unfold bind. rewrite Ep.
  unfold ret at 1 2. unfold cy_sql. rewrite remote_run. cbn [backend rng log].
  destruct (fst (exec_sql (insert_users_query [p]) (backend w)));
    reflexivity.
Qed.

(* ===================================================================== *)
(** ** User provisioning *)
(* ===================================================================== *)

(** C3 (amended): for every list of user options, [createManyUsers]
    issues exactly one gateway call, a [cy.sql] insert whose statement
    concatenates one value tuple per user; when that call succeeds the
    returned profiles have the length and the order of the input, each
    one keeping the fields that were supplied non-empty, with an absent
    or empty name or e-mail synthesized and an absent role defaulted to
    [user]. *)
Theorem createManyUsers_one_batch_in_order
    (users : list UserOptions) (w : World G B) :
  exists ps g',
    List.length ps = List.length users
    /\ Forall2 fills users ps
    /\ insert_users_query ps
       = "insert into users (id, name, email, role) values"
           ++ join "," (map value_tuple ps) ++ ";"
    /\ createManyUsers users w
       = (match fst (exec_sql (insert_users_query ps) (backend w)) with
          | Some _ => Done ps
          | None => Failed RemoteError
          end,
          mkWorld g' (snd (exec_sql (insert_users_query ps) (backend w)))
                  (log w ++ [CallSql (insert_users_query ps)])).
Proof.
  destruct (createManyUsers_run users w) as (ps & g' & Hps & _ & Erun).
  exists ps, g'. split.
  { symmetry. eapply Forall2_length. exact Hps. }
  split; [exact Hps|]. split; [reflexivity | exact Erun].
Qed.

(** C4: when the single [cy.sql] call of [createManyUsers] fails, the
    command fails with that failure, no profile is returned for any
    entry, and that call is the only one that was issued. *)
Theorem createManyUsers_fails_atomically
    (users : list UserOptions) (w : World G B) :
  fst (exec_sql (insert_users_query (synthesized_profiles users w))
         (backend w)) = None ->
  fst (createManyUsers users w) = Failed RemoteError
  /\ (forall ps, fst (createManyUsers users w) <> Done ps)
  /\ log (snd (createManyUsers users w))
     = (log w
        ++ [CallSql (insert_users_query (synthesized_profiles users w))])%list.
Proof.
  intros Hfail.
  destruct (createManyUsers_run users w) as (ps & g' & _ & Esyn & Erun).
  rewrite Esyn in Hfail |- *. rewrite Erun. cbn [fst snd log].
  rewrite Hfail. repeat split. intros ps' E. discriminate E.
Qed.

(** C8: [createUser({name: "Alice"})] issues one insert covering one
    user and, when it succeeds, returns a record named ["Alice"], with a
    generated e-mail of e-mail shape, role [user] and a newly generated
    guid as id; in general [createUser] completes whatever name, e-mail
    and role are missing and issues a single insert for that one
    profile. *)
Theorem createUser_completes_profile {CL : ChanceLaws G} :
  (forall w : World G B,
     exists p g',
       p_name p = "Alice"
       /\ is_email (p_email p) = true
       /\ p_role p = user
       /\ p_id p = fst (chance_guid (rng w))
       /\ createUser (Some (mkUserOptions (Some "Alice") None None)) w
          = (match fst (exec_sql (insert_users_query [p]) (backend w)) with
             | Some _ => Done (Some p)
             | None => Failed RemoteError
             end,
             mkWorld g' (snd (exec_sql (insert_users_query [p]) (backend w)))
                     (log w ++ [CallSql (insert_users_query [p])])))
  /\ (forall (u : option UserOptions) (w : World G B),
        exists p g',
          fills (match u with Some u => u | None => emptyUserOptions end) p
          /\ (truthy_string
                (uo_email (match u with
                           | Some u => u
                           | None => emptyUserOptions
                           end)) = None ->
              is_email (p_email p) = true)
          /\ p_id p = fst (chance_guid (rng w))
          /\ createUser u w
             = (match fst (exec_sql (insert_users_query [p]) (backend w)) with
                | Some _ => Done (Some p)
                | None => Failed RemoteError
                end,
                mkWorld g' (snd (exec_sql (insert_users_query [p]) (backend w)))
                        (log w ++ [CallSql (insert_users_query [p])]))).
Proof.
  split.
  - intros w.
    destruct (createUser_run (Some (mkUserOptions (Some "Alice") None None)) w)
      as (p & g' & Hp & Hid & Erun).
    destruct Hp as (_ & Hname & _ & _ & Hemail & _ & Hrole).
    exists p, g'. split.
    { apply Hname; [reflexivity | discriminate]. }
    split.
    { destruct (Hemail eq_refl) as (g & ->). apply chance_email_shape. }
    split; [apply Hrole; reflexivity|]. split; assumption.
  - intros u w.
    destruct (createUser_run u w) as (p & g' & Hp & Hid & Erun).
    exists p, g'. split; [exact Hp|]. split.
    { intros Hnone. destruct Hp as (_ & _ & _ & _ & Hemail & _).
      destruct (Hemail Hnone) as (g & ->). apply chance_email_shape. }
    split; assumption.
Qed.

(* ===================================================================== *)
(** ** Cleanup *)
(* ===================================================================== *)

(** A [forEach] of deletions that runs to its end has issued one
    [deleteAll] per element, in order, and nothing else. *)
Lemma forEach_deleteAll_log (ids : list string) :
  forall (w w' : World G B),
    forEach ids (fun cm => cy_graphql2_deleteAll [contactMethod_target cm]) w
    = (Done tt, w') ->
    log w' = (log w ++ map delete_call ids)%list.
Proof.
  induction ids as [|id rest IH]; intros w w' Hrun.
  - cbn in Hrun. inversion Hrun; subst. cbn. rewrite app_nil_r. reflexivity.
  - cbn [forEach] in Hrun. unfold bind at 1 in Hrun.
    unfold cy_graphql2_deleteAll at 1 in Hrun. rewrite remote_run in Hrun.
    destruct (fst (exec_deleteAll [contactMethod_target id] (backend w)));
      [|discriminate Hrun].
    apply IH in Hrun. rewrite Hrun. cbn [log map].
    rewrite <- app_assoc. reflexivity.
Qed.

Lemma clearContactMethods_run (id : string) (w : World G B) :
  clearContactMethods id w
  = match fst (exec_contactMethodsQuery id (backend w)) with
    | Some ids =>
        let w1 := mkWorld (rng w) (snd (exec_contactMethodsQuery id (backend w)))
                    (log w ++ [CallContactMethodsQuery id]) in
        if (List.length ids =? 0)%nat then (Done tt, w1)
        else forEach ids
               (fun cm => cy_graphql2_deleteAll [contactMethod_target cm]) w1
    | None =>
        (Failed RemoteError,
         mkWorld (rng w) (snd (exec_contactMethodsQuery id (backend w)))
           (log w ++ [CallContactMethodsQuery id]))
    end.
Proof.
  unfold clearContactMethods, bind, cy_graphql2_contactMethods.
  rewrite remote_run.
  destruct (fst (exec_contactMethodsQuery id (backend w))) as [ids|];
    [|reflexivity].
  cbn zeta. destruct (List.length ids =? 0)%nat; reflexivity.
Qed.

Lemma clearContactMethods_none (id : string) (w : World G B) :
  fst (exec_contactMethodsQuery id (backend w)) = Some [] ->
  clearContactMethods id w
  = (Done tt,
     mkWorld (rng w) (snd (exec_contactMethodsQuery id (backend w)))
       (log w ++ [CallContactMethodsQuery id])).
Proof.
  intros Hq. rewrite clearContactMethods_run, Hq. reflexivity.
Qed.

Lemma clearContactMethods_some (id : string) (ids : list string)
    (w w' : World G B) :
  fst (exec_contactMethodsQuery id (backend w)) = Some ids ->
  clearContactMethods id w = (Done tt, w') ->
  log w' = (log w ++ CallContactMethodsQuery id :: map delete_call ids)%list.
Proof.
  intros Hq Hrun. rewrite clearContactMethods_run, Hq in Hrun. cbn zeta in Hrun.
  destruct ids as [|i rest].
  - cbn in Hrun. inversion Hrun; subst. reflexivity.
  - cbn [List.length Nat.eqb] in Hrun.
    apply forEach_deleteAll_log in Hrun. rewrite Hrun. cbn [log].
    rewrite <- app_assoc. reflexivity.
Qed.

End Properties.

(** *** Cleanup on the in-memory backend *)

Section StoreCleanup.

Context {G : Type}.

Lemma store_forEach_deleteAll (ids : list string) :
  forall w : World G Store.t,
  exists w',
    forEach ids (fun cm => cy_graphql2_deleteAll [contactMethod_target cm]) w
    = (Done tt, w')
    /\ rng w' = rng w
    /\ log w' = (log w ++ map delete_call ids)%list
    /\ (forall cm, In cm (Store.st_contactMethods (backend w')) ->
          In cm (Store.st_contactMethods (backend w))
          /\ ~ In (cm_id cm) ids).
Proof.
  induction ids as [|id rest IH]; intros w.
  - exists w. cbn. rewrite app_nil_r. repeat split; auto.
  - cbn [forEach]. unfold bind at 1.
    unfold cy_graphql2_deleteAll at 1. rewrite remote_run.
    cbn [exec_deleteAll store_gateway Store.exec_deleteAll fst snd].
    match goal with
    | |- context [forEach rest _ ?w1] =>
        destruct (IH w1) as (w' & Erun & Hrng & Hlog & Hcms)
    end.
    exists w'. split; [exact Erun|]. split; [exact Hrng|]. split.
    + rewrite Hlog. cbn [log map]. rewrite <- app_assoc. reflexivity.
    + intros cm Hin. apply Hcms in Hin. destruct Hin as [Hin Hrest].
      cbn [backend Store.st_contactMethods] in Hin.
      apply filter_In in Hin. destruct Hin as [Hin Hkeep].
      split; [exact Hin|].
      intros [Heq | Hin']; [|exact (Hrest Hin')].
      subst id. unfold Store.targeted, contactMethod_target in Hkeep.
      cbn in Hkeep. rewrite String.eqb_refl in Hkeep. discriminate Hkeep.
Qed.

(** On the store, a cleanup always succeeds, and after it the user owns
    no contact method. *)
Lemma store_clearContactMethods (id : string) (w : World G Store.t) :
  exists w',
    clearContactMethods id w = (Done tt, w')
    /\ fst (exec_contactMethodsQuery id (backend w')) = Some [].
Proof.
  rewrite clearContactMethods_run.
  cbn [exec_contactMethodsQuery store_gateway Store.exec_contactMethodsQuery
       fst snd].
  remember (map cm_id
              (filter (Store.owned_by id)
                 (Store.st_contactMethods (backend w)))) as ids eqn:Eids.
  cbn zeta. destruct (List.length ids =? 0)%nat eqn:Elen.
  - eexists. split; [reflexivity|].
    cbn [backend exec_contactMethodsQuery store_gateway
         Store.exec_contactMethodsQuery fst].
    rewrite <- Eids. destruct ids; [reflexivity | discriminate Elen].
  - match goal with
    | |- context [forEach ids _ ?w1] =>
        destruct (store_forEach_deleteAll ids w1)
          as (w' & Erun & _ & _ & Hcms)
    end.
    exists w'. split; [exact Erun|]. f_equal.
    destruct (filter (Store.owned_by id)
                (Store.st_contactMethods (backend w'))) as [|cm rest] eqn:Ef;
      [reflexivity|].
    exfalso.
    assert (Hin : In cm (filter (Store.owned_by id)
                           (Store.st_contactMethods (backend w')))).
    { rewrite Ef. left. reflexivity. }
    apply filter_In in Hin. destruct Hin as [Hin Hown].
    apply Hcms in Hin. cbn [backend] in Hin. destruct Hin as [Hin Hnot].
    apply Hnot. rewrite Eids. apply in_map. apply filter_In.
    split; assumption.
Qed.

End StoreCleanup.


(* ===================================================================== *)
(** ** Contact methods *)
(* ===================================================================== *)

Section Provisioning.

Context {G B : Type} {CH : Chance G} {GW : Gateway B}.

(** Once the options carry a truthy [userID], the body no longer calls
    itself: any positive fuel gives the same run. *)
Lemma addContactMethod_ready_fuel (f : nat) (cm : ContactMethodOptions)
    (uid : string) (w : World G B) :
  truthy_string (cmo_userID cm) = Some uid ->
  addContactMethod (S f) (Some cm) w = addContactMethod 1 (Some cm) w.
Proof. intros Hu. cbn [addContactMethod]. rewrite Hu. reflexivity. Qed.

(** With a truthy [userID] the command issues the creation mutation and
    nothing else; the input carries that [userID], and the supplied
    truthy value or else the synthesized phone. *)
Lemma addContactMethod_ready (cm : ContactMethodOptions) (uid : string)
    (w : World G B) :
  truthy_string (cmo_userID cm) = Some uid ->
  exists i g',
    addContactMethod 1 (Some cm) w
    = (match fst (exec_createUserContactMethod i (backend w)) with
       | Some res => Done (stamp_contactMethod res uid)
       | None => Failed RemoteError
       end,
       mkWorld g' (snd (exec_createUserContactMethod i (backend w)))
         (log w ++ [CallCreateUserContactMethod i]))
    /\ cmi_userID i = uid
    /\ cmi_value i
       = match truthy_string (cmo_value cm) with
         | Some v => v
         | None =>
             "+1763"
               ++ number_to_string
                    (fst (chance_integer 3000000 3999999 (rng w)))
         end.
Proof.
  intros Hu. cbn [addContactMethod]. rewrite Hu.
  unfold bind, draw, or_else, ret, truthy_enum,
    cy_graphql2_createUserContactMethod, remote.
  cbn [rng backend log].
  destruct (truthy_string (cmo_name cm)) as [name|];
    destruct (cmo_type cm) as [ty|];
    destruct (truthy_string (cmo_value cm)) as [v|];
    cbn [rng backend log];
    match goal with
    | |- context [CallCreateUserContactMethod ?i0] => exists i0
    end;
    eexists;
    (split;
     [match goal with
      | |- context [fst ?e] => destruct (fst e); reflexivity
      end
     |split; reflexivity]).
Qed.

Lemma addContactMethod_with_userID (fuel : nat) (cm : ContactMethodOptions)
    (uid : string) (w : World G B) :
  truthy_string (cmo_userID cm) = Some uid ->
  addContactMethod fuel (Some cm) w = (OutOfFuel, w)
  \/ exists i g',
       addContactMethod fuel (Some cm) w
       = (match fst (exec_createUserContactMethod i (backend w)) with
          | Some res => Done (stamp_contactMethod res uid)
          | None => Failed RemoteError
          end,
          mkWorld g' (snd (exec_createUserContactMethod i (backend w)))
            (log w ++ [CallCreateUserContactMethod i]))
       /\ cmi_userID i = uid.
Proof.
  intros Hu. destruct fuel as [|f]; [left; reflexivity | right].
  rewrite (addContactMethod_ready_fuel f cm uid w Hu).
  destruct (addContactMethod_ready cm uid w Hu) as (i & g' & E & Hi & _).
  exists i, g'. split; assumption.
Qed.

(** Without a truthy [userID] the command loads the fixture and calls
    itself with the id of the loaded profile. *)
Lemma addContactMethod_resolve (f : nat) (cm : ContactMethodOptions)
    (w : World G B) :
  truthy_string (cmo_userID cm) = None ->
  addContactMethod (S f) (Some cm) w
  = match load_fixture "profile" (backend w) with
    | Some prof =>
        addContactMethod f (Some (cm_with_userID cm (p_id prof)))
          (mkWorld (rng w) (backend w) (log w ++ [CallFixture "profile"]))
    | None =>
        (Failed FixtureLoadError,
         mkWorld (rng w) (backend w) (log w ++ [CallFixture "profile"]))
    end.
Proof.
  intros Hu. cbn [addContactMethod]. rewrite Hu.
  unfold bind. rewrite cy_fixture_run.
  destruct (load_fixture "profile" (backend w)); reflexivity.
Qed.

Lemma addContactMethod_default (fuel : nat)
    (cm : option ContactMethodOptions) (w : World G B) :
  addContactMethod fuel cm w
  = addContactMethod fuel
      (Some (match cm with
             | Some cm => cm
             | None => emptyContactMethodOptions
             end)) w.
Proof. destruct fuel, cm; reflexivity. Qed.

(** Every call [addContactMethod] issues, on any fuel and along any
    path: fixture loads while the [userID] is missing, then at most the
    creation mutation, whose value is the truthy value of the options or
    a synthesized phone. *)
Lemma addContactMethod_calls {CL : ChanceLaws G} (fuel : nat) :
  forall (cm : option ContactMethodOptions) (w : World G B),
  exists calls,
    log (snd (addContactMethod fuel cm w)) = (log w ++ calls)%list
    /\ Forall (contact_call_ok
                 (truthy_string
                    (cmo_value (match cm with
                                | Some cm => cm
                                | None => emptyContactMethodOptions
                                end)))) calls
    /\ (forall c, fst (addContactMethod fuel cm w) = Done c ->
        exists i pre, calls = (pre ++ [CallCreateUserContactMethod i])%list).
Proof.
  induction fuel as [|f IH]; intros cm w.
  - exists []. cbn. rewrite app_nil_r. repeat split; [constructor|].
    intros c E. discriminate E.
  - set (cm' := match cm with
                | Some cm => cm
                | None => emptyContactMethodOptions
                end).
    rewrite (addContactMethod_default (S f) cm w). fold cm'.
    destruct (truthy_string (cmo_userID cm')) as [uid|] eqn:Hu.
    + rewrite (addContactMethod_ready_fuel f cm' uid w Hu).
      destruct (addContactMethod_ready cm' uid w Hu)
        as (i & g' & E & _ & Hv).
      rewrite E. cbn [fst snd log].
      exists [CallCreateUserContactMethod i]. split; [reflexivity|]. split.
      * constructor; [|constructor]. cbn [contact_call_ok]. rewrite Hv.
        destruct (truthy_string (cmo_value cm')); [reflexivity|].
        eexists. split; [|reflexivity].
        apply chance_integer_range. lia.
      * intros c _. exists i, []. reflexivity.
    + rewrite (addContactMethod_resolve f cm' w Hu).
      destruct (load_fixture "profile" (backend w)) as [prof|].
      * match goal with
        | |- context [addContactMethod f ?c ?w1] =>
            destruct (IH c w1) as (calls & Hlog & Hok & Hdone)
        end.
        exists (CallFixture "profile" :: calls). split.
        { rewrite Hlog. cbn [log]. rewrite <- app_assoc. reflexivity. }
        split.
        { constructor; [reflexivity | exact Hok]. }
        intros c E. destruct (Hdone c E) as (i & pre & ->).
        exists i, (CallFixture "profile" :: pre). reflexivity.
      * exists [CallFixture "profile"]. split; [reflexivity|]. split.
        { constructor; [reflexivity | constructor]. }
        intros c E. discriminate E.
Qed.

(** C9: whenever [addContactMethod] has to synthesize the value (the
    options carry none), the value sent in the creation mutation is
    ["+1763"] followed by the decimal digits of an integer of the range
    3000000..3999999, which are exactly seven digits: a [+] and eleven
    digits in all. *)
Theorem addContactMethod_synthesized_phone {CL : ChanceLaws G}
    (fuel : nat) (cm : option ContactMethodOptions) (w : World G B) :
  truthy_string
    (cmo_value (match cm with
                | Some cm => cm
                | None => emptyContactMethodOptions
                end)) = None ->
  exists calls,
    log (snd (addContactMethod fuel cm w)) = (log w ++ calls)%list
    /\ (forall i, In (CallCreateUserContactMethod i) calls ->
        exists n,
          3000000 <= n <= 3999999
          /\ cmi_value i = "+1763" ++ number_to_string n
          /\ String.length (number_to_string n) = 7%nat
          /\ all_digits (number_to_string n) = true
          /\ is_phone (cmi_value i) = true)
    /\ (forall c, fst (addContactMethod fuel cm w) = Done c ->
        exists i, In (CallCreateUserContactMethod i) calls).
Proof.
  intros Hnone.
  destruct (addContactMethod_calls fuel cm w) as (calls & Hlog & Hok & Hdone).
  rewrite Hnone in Hok.
  exists calls. split; [exact Hlog|]. split.
  - intros i Hin. rewrite Forall_forall in Hok. specialize (Hok _ Hin).
    cbn [contact_call_ok] in Hok.
    destruct (synthesized_phone_shape _ Hok) as [_ Hphone].
    destruct Hok as (n & Hn & Hv).
    destruct (seven_digits n Hn) as [Hlen Hdig].
    exists n. repeat split; try assumption; lia.
  - intros c E. destruct (Hdone c E) as (i & pre & ->).
    exists i. apply in_or_app. right. left. reflexivity.
Qed.

(* ===================================================================== *)
(** ** Notification rules *)
(* ===================================================================== *)

Lemma addNotificationRule_default (fuel : nat)
    (nr : option NotificationRuleOptions) (w : World G B) :
  addNotificationRule fuel nr w
  = addNotificationRule fuel
      (Some (match nr with
             | Some nr => nr
             | None => emptyNotificationRuleOptions
             end)) w.
Proof. destruct fuel, nr; reflexivity. Qed.

(** With both ids truthy the body no longer calls itself. *)
Lemma addNotificationRule_ready_fuel (f : nat) (nr : NotificationRuleOptions)
    (uid cmid : string) (w : World G B) :
  truthy_string (nro_userID nr) = Some uid ->
  truthy_string (nro_contactMethodID nr) = Some cmid ->
  addNotificationRule (S f) (Some nr) w = addNotificationRule 1 (Some nr) w.
Proof.
  intros Hu Hc. cbn [addNotificationRule]. rewrite Hu, Hc. reflexivity.
Qed.

(** With both ids truthy the command issues the creation mutation and
    nothing else; the input carries the two ids, and the truthy delay of
    the options or else a draw from 0..15. *)
Lemma addNotificationRule_ready (nr : NotificationRuleOptions)
    (uid cmid : string) (w : World G B) :
  truthy_string (nro_userID nr) = Some uid ->
  truthy_string (nro_contactMethodID nr) = Some cmid ->
  exists i g',
    addNotificationRule 1 (Some nr) w
    = (match fst (exec_createUserNotificationRule i (backend w)) with
       | Some res => Done (stamp_notificationRule res uid)
       | None => Failed RemoteError
       end,
       mkWorld g' (snd (exec_createUserNotificationRule i (backend w)))
         (log w ++ [CallCreateUserNotificationRule i]))
    /\ nri_userID i = uid
    /\ nri_contactMethodID i = cmid
    /\ nri_delayMinutes i
       = match truthy_number (nro_delayMinutes nr) with
         | Some n => n
         | None => fst (chance_integer 0 15 (rng w))
         end.
Proof.
  intros Hu Hc. cbn [addNotificationRule]. rewrite Hu, Hc.
  unfold bind, draw, or_else, ret,
    cy_graphql2_createUserNotificationRule, remote.
  cbn [rng backend log].
  destruct (truthy_number (nro_delayMinutes nr)) as [n|];
    cbn [rng backend log];
    match goal with
    | |- context [CallCreateUserNotificationRule ?i0] => exists i0
    end;
    eexists;
    (split;
     [match goal with
      | |- context [fst ?e] => destruct (fst e); reflexivity
      end
     |repeat split; reflexivity]).
Qed.

Lemma addNotificationRule_resolve_user (f : nat)
    (nr : NotificationRuleOptions) (w : World G B) :
  truthy_string (nro_userID nr) = None ->
  addNotificationRule (S f) (Some nr) w
  = match load_fixture "profile" (backend w) with
    | Some prof =>
        addNotificationRule f (Some (nr_with_userID nr (p_id prof)))
          (mkWorld (rng w) (backend w) (log w ++ [CallFixture "profile"]))
    | None =>
        (Failed FixtureLoadError,
         mkWorld (rng w) (backend w) (log w ++ [CallFixture "profile"]))
    end.
Proof.
  intros Hu. cbn [addNotificationRule]. rewrite Hu.
  unfold bind. rewrite cy_fixture_run.
  destruct (load_fixture "profile" (backend w)); reflexivity.
Qed.

Lemma addNotificationRule_resolve_contactMethod (f : nat)
    (nr : NotificationRuleOptions) (uid : string) (w : World G B) :
  truthy_string (nro_userID nr) = Some uid ->
  truthy_string (nro_contactMethodID nr) = None ->
  addNotificationRule (S f) (Some nr) w
  = match addContactMethod f (Some (nested_cm_with_userID nr uid)) w with
    | (Done cm, w') =>
        addNotificationRule f
          (Some (nr_with_contactMethodID nr (cm_id cm))) w'
    | (Failed e, w') => (Failed e, w')
    | (OutOfFuel, w') => (OutOfFuel, w')
    end.
Proof.
  intros Hu Hc. cbn [addNotificationRule]. rewrite Hu, Hc. reflexivity.
Qed.

Lemma nested_cm_userID (nr : NotificationRuleOptions) (uid : string) :
  truthy_string (nro_userID nr) = Some uid ->
  truthy_string (cmo_userID (nested_cm_with_userID nr uid)) = Some uid.
Proof. intros Hu. cbn. exact (truthy_string_idem _ _ Hu). Qed.

Lemma rule_call_ok_weaken (uid : string) (cmid : option string) (c : Call) :
  rule_call_ok uid cmid c -> rule_call_ok uid None c.
Proof.
  destruct c; cbn; try tauto; intros [Hu _]; (split; [exact Hu|]);
    try reflexivity; intros id E; discriminate E.
Qed.

(** Every call [addNotificationRule] issues, on any fuel and along any
    path, works for the resolved user; and a rule that is returned
    carries that user on itself and on its contact method, after a
    creation mutation that closes the run. *)
Lemma addNotificationRule_calls (fuel : nat) :
  forall (nr : option NotificationRuleOptions) (w : World G B) (uid : string),
    (forall u, resolved_userID nr w = Some u -> u = uid) ->
    exists calls,
      log (snd (addNotificationRule fuel nr w)) = (log w ++ calls)%list
      /\ Forall (rule_call_ok uid
                   (truthy_string
                      (nro_contactMethodID
                         (match nr with
                          | Some nr => nr
                          | None => emptyNotificationRuleOptions
                          end)))) calls
      /\ (forall r, fst (addNotificationRule fuel nr w) = Done r ->
          resolved_userID nr w = Some uid
          /\ nr_userID r = uid
          /\ cm_userID (nr_contactMethod r) = uid
          /\ exists i pre,
               calls = (pre ++ [CallCreateUserNotificationRule i])%list
               /\ (truthy_string
                     (nro_contactMethodID
                        (match nr with
                         | Some nr => nr
                         | None => emptyNotificationRuleOptions
                         end)) = None ->
                   exists j, In (CallCreateUserContactMethod j) pre)).
Proof.
  induction fuel as [|f IH]; intros nr w uid Hres.
  { exists []. cbn. rewrite app_nil_r. split; [reflexivity|].
    split; [constructor|]. intros r E. discriminate E. }
  rewrite (addNotificationRule_default (S f) nr w).
  unfold resolved_userID in *.
  set (nr' := match nr with
              | Some nr => nr
              | None => emptyNotificationRuleOptions
              end) in *.
  destruct (truthy_string (nro_userID nr')) as [u|] eqn:Hu.
  - assert (u = uid) by (apply Hres; reflexivity). subst u.
    destruct (truthy_string (nro_contactMethodID nr')) as [c|] eqn:Hc.
    + rewrite (addNotificationRule_ready_fuel f nr' uid c w Hu Hc).
      destruct (addNotificationRule_ready nr' uid c w Hu Hc)
        as (i & g' & E & Hi1 & Hi2 & _).
      rewrite E. cbn [fst snd log].
      exists [CallCreateUserNotificationRule i]. split; [reflexivity|]. split.
      * constructor; [|constructor]. cbn. split; [exact Hi1|].
        intros id [= <-]. exact Hi2.
      * intros r Er.
        destruct (fst (exec_createUserNotificationRule i (backend w)));
          [|discriminate Er].
        inversion Er; subst r. cbn. repeat split.
        exists i, []. split; [reflexivity|]. intros Habs. discriminate Habs.
    + rewrite (addNotificationRule_resolve_contactMethod f nr' uid w Hu Hc).
      destruct (addContactMethod_with_userID f (nested_cm_with_userID nr' uid)
                  uid w (nested_cm_userID nr' uid Hu))
        as [Eoof | (j & g' & Ecm & Hj)].
      * rewrite Eoof. exists []. cbn. rewrite app_nil_r.
        split; [reflexivity|]. split; [constructor|].
        intros r E. discriminate E.
      * rewrite Ecm.
        destruct (fst (exec_createUserContactMethod j (backend w)))
          as [res|].
        -- match goal with
           | |- context [addNotificationRule f ?n ?w1] =>
               destruct (IH n w1 uid) as (calls & Hlog & Hok & Hdone)
           end.
           { cbn. rewrite Hu. intros u' Eu. inversion Eu. reflexivity. }
           exists (CallCreateUserContactMethod j :: calls). split.
           { rewrite Hlog. cbn [log]. rewrite <- app_assoc. reflexivity. }
           split.
           { constructor.
             - cbn. split; [exact Hj | reflexivity].
             - eapply Forall_impl; [|exact Hok].
               intros c. apply rule_call_ok_weaken. }
           intros r Er.
           destruct (Hdone r Er) as (_ & H1 & H2 & i & pre & -> & _).
           repeat split; try assumption.
           exists i, (CallCreateUserContactMethod j :: pre).
           split; [reflexivity|]. intros _. exists j. left. reflexivity.
        -- exists [CallCreateUserContactMethod j]. cbn [fst snd log].
           split; [reflexivity|]. split.
           { constructor; [|constructor]. cbn.
             split; [exact Hj | reflexivity]. }
           intros r E. discriminate E.
  - rewrite (addNotificationRule_resolve_user f nr' w Hu).
    destruct (load_fixture "profile" (backend w)) as [prof|] eqn:Hfix.
    + assert (p_id prof = uid) by (apply Hres; reflexivity).
      match goal with
      | |- context [addNotificationRule f ?n ?w1] =>
          destruct (IH n w1 uid) as (calls & Hlog & Hok & Hdone)
      end.
      { cbn [nr_with_userID nro_userID backend].
        destruct (truthy_string (Some (p_id prof))) as [s|] eqn:Hs.
        - apply truthy_string_Some in Hs. destruct Hs as [Hs _].
          inversion Hs; subst. intros u' Eu. inversion Eu. reflexivity.
        - rewrite Hfix. cbn. intros u' Eu. inversion Eu; subst.
          reflexivity. }
      exists (CallFixture "profile" :: calls). split.
      { rewrite Hlog. cbn [log]. rewrite <- app_assoc. reflexivity. }
      split.
      { constructor; [reflexivity | exact Hok]. }
      intros r Er.
      destruct (Hdone r Er) as (_ & H1 & H2 & i & pre & -> & Hcm).
      split; [cbn; subst uid; reflexivity|].
      repeat split; try assumption.
      exists i, (CallFixture "profile" :: pre). split; [reflexivity|].
      intros Hnone. destruct (Hcm Hnone) as (j & Hj).
      exists j. right. exact Hj.
    + exists [CallFixture "profile"]. split; [reflexivity|]. split.
      { constructor; [reflexivity | constructor]. }
      intros r E. discriminate E.
Qed.

(** C1: a rule returned by [addNotificationRule] carries, on itself and
    on its embedded contact method, the [userID] the creation was made
    with: the truthy [userID] of the options, or else the id of the
    test profile, which is also the [userID] of the creation mutation
    that closes the run. *)
Theorem addNotificationRule_stamps_userID
    (fuel : nat) (nr : option NotificationRuleOptions) (w : World G B)
    (r : NotificationRule) :
  fst (addNotificationRule fuel nr w) = Done r ->
  resolved_userID nr w = Some (nr_userID r)
  /\ cm_userID (nr_contactMethod r) = nr_userID r
  /\ exists i pre,
       log (snd (addNotificationRule fuel nr w))
       = (log w ++ pre ++ [CallCreateUserNotificationRule i])%list
       /\ nri_userID i = nr_userID r.
Proof.
  intros Er.
  set (uid := match resolved_userID nr w with Some u => u | None => "" end).
  destruct (addNotificationRule_calls fuel nr w uid)
    as (calls & Hlog & Hok & Hdone).
  { intros u E. unfold uid. rewrite E. reflexivity. }
  destruct (Hdone r Er) as (Hres & H1 & H2 & i & pre & -> & _).
  rewrite H1, H2. split; [exact Hres|]. split; [reflexivity|].
  exists i, pre. split; [exact Hlog|].
  rewrite Forall_forall in Hok.
  specialize (Hok (CallCreateUserNotificationRule i)).
  destruct Hok as [Hi _]; [|exact Hi].
  apply in_or_app. right. left. reflexivity.
Qed.

(** C6 (amended): when the options carry a non-empty [contactMethodID],
    [addNotificationRule] issues no contact-method creation, on any
    path, and every rule-creation mutation it issues carries that id;
    a run that returns a rule has issued one. *)
Theorem addNotificationRule_uses_supplied_contactMethodID
    (fuel : nat) (nr : NotificationRuleOptions) (w : World G B)
    (cmid : string) :
  nro_contactMethodID nr = Some cmid ->
  cmid <> "" ->
  exists calls,
    log (snd (addNotificationRule fuel (Some nr) w)) = (log w ++ calls)%list
    /\ (forall j, ~ In (CallCreateUserContactMethod j) calls)
    /\ (forall i, In (CallCreateUserNotificationRule i) calls ->
        nri_contactMethodID i = cmid)
    /\ (forall r, fst (addNotificationRule fuel (Some nr) w) = Done r ->
        exists i, In (CallCreateUserNotificationRule i) calls).
Proof.
  intros Hc Hne.
  set (uid := match resolved_userID (Some nr) w with
              | Some u => u
              | None => ""
              end).
  destruct (addNotificationRule_calls fuel (Some nr) w uid)
    as (calls & Hlog & Hok & Hdone).
  { intros u E. unfold uid. rewrite E. reflexivity. }
  rewrite Hc, (truthy_string_nonempty cmid Hne) in Hok.
  rewrite Forall_forall in Hok.
  exists calls. split; [exact Hlog|]. split; [|split].
  - intros j Hin. apply Hok in Hin. cbn in Hin.
    destruct Hin as [_ Habs]. discriminate Habs.
  - intros i Hin. apply Hok in Hin. cbn in Hin.
    destruct Hin as [_ Hid]. apply Hid. reflexivity.
  - intros r Er. destruct (Hdone r Er) as (_ & _ & _ & i & pre & -> & _).
    exists i. apply in_or_app. right. left. reflexivity.
Qed.

(** C10: every contact method [addNotificationRule] creates on the way
    is created for the resolved user of the rule, whatever [userID] the
    nested contact-method options carry; and a rule returned from
    options without a truthy [contactMethodID] was preceded by such a
    creation, for the user the rule carries. *)
Theorem addNotificationRule_contactMethod_owner
    (fuel : nat) (nr : option NotificationRuleOptions) (w : World G B) :
  exists calls,
    log (snd (addNotificationRule fuel nr w)) = (log w ++ calls)%list
    /\ (forall j, In (CallCreateUserContactMethod j) calls ->
        resolved_userID nr w = Some (cmi_userID j))
    /\ (forall r, fst (addNotificationRule fuel nr w) = Done r ->
        truthy_string
          (nro_contactMethodID
             (match nr with
              | Some nr => nr
              | None => emptyNotificationRuleOptions
              end)) = None ->
        exists j, In (CallCreateUserContactMethod j) calls
                  /\ cmi_userID j = nr_userID r).
Proof.
  destruct (resolved_userID nr w) as [u|] eqn:Hres.
  - destruct (addNotificationRule_calls fuel nr w u)
      as (calls & Hlog & Hok & Hdone).
    { intros u' E. rewrite Hres in E. inversion E. reflexivity. }
    rewrite Forall_forall in Hok.
    exists calls. split; [exact Hlog|]. split.
    + intros j Hin. apply Hok in Hin. cbn in Hin.
      destruct Hin as [Hj _]. rewrite Hj. reflexivity.
    + intros r Er Hnone.
      destruct (Hdone r Er) as (_ & H1 & _ & i & pre & -> & Hcm).
      destruct (Hcm Hnone) as (j & Hj).
      assert (Hin : In (CallCreateUserContactMethod j)
                      (pre ++ [CallCreateUserNotificationRule i])).
      { apply in_or_app. left. exact Hj. }
      exists j. split; [exact Hin|].
      apply Hok in Hin. cbn in Hin. destruct Hin as [-> _].
      symmetry. exact H1.
  - destruct (addNotificationRule_calls fuel nr w "a")
      as (calls & Hlog & Hoka & Hdone).
    { intros u' E. rewrite Hres in E. discriminate E. }
    destruct (addNotificationRule_calls fuel nr w "b")
      as (calls' & Hlog' & Hokb & _).
    { intros u' E. rewrite Hres in E. discriminate E. }
    rewrite Hlog in Hlog'. apply app_inv_head in Hlog'. subst calls'.
    rewrite Forall_forall in Hoka, Hokb.
    exists calls. split; [exact Hlog|]. split.
    + intros j Hin. exfalso.
      pose proof (Hoka _ Hin) as Ha. pose proof (Hokb _ Hin) as Hb.
      cbn in Ha, Hb. destruct Ha as [Ha _]. destruct Hb as [Hb _].
      rewrite Ha in Hb. discriminate Hb.
    + intros r Er _. destruct (Hdone r Er) as (Habs & _).
      rewrite Hres in Habs. discriminate Habs.
Qed.

(** The delay sent in the creation mutation: the delay of the options
    when it is present and not [0], a draw from 0..15 when it is absent
    and also when it is [0]. *)
Lemma addNotificationRule_delay (nr : NotificationRuleOptions)
    (uid cmid : string) (w : World G B) :
  truthy_string (nro_userID nr) = Some uid ->
  truthy_string (nro_contactMethodID nr) = Some cmid ->
  exists i,
    log (snd (addNotificationRule 1 (Some nr) w))
    = (log w ++ [CallCreateUserNotificationRule i])%list
    /\ nri_delayMinutes i
       = match nro_delayMinutes nr with
         | Some n => if n =? 0 then fst (chance_integer 0 15 (rng w)) else n
         | None => fst (chance_integer 0 15 (rng w))
         end.
Proof.
  intros Hu Hc.
  destruct (addNotificationRule_ready nr uid cmid w Hu Hc)
    as (i & g' & E & _ & _ & Hd).
  exists i. rewrite E. split; [reflexivity|]. rewrite Hd.
  unfold truthy_number. destruct (nro_delayMinutes nr) as [n|];
    [destruct (n =? 0)|]; reflexivity.
Qed.

(* ===================================================================== *)
(** ** Termination of the dependency resolution *)
(* ===================================================================== *)

Lemma addContactMethod_ready_returns (cm : ContactMethodOptions)
    (uid : string) (w : World G B) :
  truthy_string (cmo_userID cm) = Some uid ->
  fst (addContactMethod 1 (Some cm) w) <> OutOfFuel.
Proof.
  intros Hu. destruct (addContactMethod_ready cm uid w Hu) as (i & g' & E & _).
  rewrite E. cbn [fst].
  destruct (fst (exec_createUserContactMethod i (backend w))); discriminate.
Qed.

Lemma addNotificationRule_ready_returns (nr : NotificationRuleOptions)
    (uid cmid : string) (w : World G B) :
  truthy_string (nro_userID nr) = Some uid ->
  truthy_string (nro_contactMethodID nr) = Some cmid ->
  fst (addNotificationRule 1 (Some nr) w) <> OutOfFuel.
Proof.
  intros Hu Hc.
  destruct (addNotificationRule_ready nr uid cmid w Hu Hc)
    as (i & g' & E & _).
  rewrite E. cbn [fst].
  destruct (fst (exec_createUserNotificationRule i (backend w)));
    discriminate.
Qed.

(** One retry is enough for [addContactMethod] when the test profile
    has an id. *)
Lemma addContactMethod_two_levels (w : World G B) :
  (forall p, load_fixture "profile" (backend w) = Some p -> p_id p <> "") ->
  forall (cm : option ContactMethodOptions) (f : nat),
    addContactMethod (S (S f)) cm w = addContactMethod 2 cm w
    /\ fst (addContactMethod 2 cm w) <> OutOfFuel.
Proof.
  intros Hfix cm f.
  rewrite (addContactMethod_default (S (S f)) cm w),
    (addContactMethod_default 2 cm w).
  set (cm' := match cm with
              | Some cm => cm
              | None => emptyContactMethodOptions
              end).
  destruct (truthy_string (cmo_userID cm')) as [uid|] eqn:Hu.
  - rewrite (addContactMethod_ready_fuel (S f) cm' uid w Hu),
      (addContactMethod_ready_fuel 1 cm' uid w Hu).
    split; [reflexivity|]. exact (addContactMethod_ready_returns cm' uid w Hu).
  - rewrite (addContactMethod_resolve (S f) cm' w Hu),
      (addContactMethod_resolve 1 cm' w Hu).
    destruct (load_fixture "profile" (backend w)) as [prof|] eqn:Hload.
    + assert (Hid : truthy_string
                      (cmo_userID (cm_with_userID cm' (p_id prof)))
                    = Some (p_id prof)).
      { cbn. apply truthy_string_nonempty. apply Hfix. reflexivity. }
      rewrite (addContactMethod_ready_fuel f _ _ _ Hid).
      split; [reflexivity|].
      exact (addContactMethod_ready_returns _ _ _ Hid).
    + split; [reflexivity | discriminate].
Qed.

(** With a truthy [userID], one retry is enough for
    [addNotificationRule] when the backend gives the contact methods it
    creates an id. *)
Lemma addNotificationRule_user_present
    (nr : NotificationRuleOptions) (uid : string) (w : World G B) (f : nat) :
  (forall i b res,
     fst (exec_createUserContactMethod i b) = Some res -> cmr_id res <> "") ->
  truthy_string (nro_userID nr) = Some uid ->
  addNotificationRule (S (S f)) (Some nr) w
  = addNotificationRule 2 (Some nr) w
  /\ fst (addNotificationRule 2 (Some nr) w) <> OutOfFuel.
Proof.
  intros Hcm Hu.
  destruct (truthy_string (nro_contactMethodID nr)) as [c|] eqn:Hc.
  - rewrite (addNotificationRule_ready_fuel (S f) nr uid c w Hu Hc),
      (addNotificationRule_ready_fuel 1 nr uid c w Hu Hc).
    split; [reflexivity|].
    exact (addNotificationRule_ready_returns nr uid c w Hu Hc).
  - rewrite (addNotificationRule_resolve_contactMethod (S f) nr uid w Hu Hc),
      (addNotificationRule_resolve_contactMethod 1 nr uid w Hu Hc).
    pose proof (nested_cm_userID nr uid Hu) as Hn.
    rewrite (addContactMethod_ready_fuel f _ _ w Hn).
    destruct (addContactMethod_ready _ _ w Hn) as (j & g' & E & _).
    rewrite E.
    destruct (fst (exec_createUserContactMethod j (backend w)))
      as [res|] eqn:Hres.
    + assert (Hu' : truthy_string
                      (nro_userID (nr_with_contactMethodID nr (cmr_id res)))
                    = Some uid) by exact Hu.
      assert (Hc' : truthy_string
                      (nro_contactMethodID
                         (nr_with_contactMethodID nr (cmr_id res)))
                    = Some (cmr_id res)).
      { cbn. apply truthy_string_nonempty. exact (Hcm _ _ _ Hres). }
      cbn [stamp_contactMethod cm_id].
      rewrite (addNotificationRule_ready_fuel f _ _ _ _ Hu' Hc').
      split; [reflexivity|].
      exact (addNotificationRule_ready_returns _ _ _ _ Hu' Hc').
    + split; [reflexivity | discriminate].
Qed.

Lemma addNotificationRule_three_levels (w : World G B) :
  (forall p, load_fixture "profile" (backend w) = Some p -> p_id p <> "") ->
  (forall i b res,
     fst (exec_createUserContactMethod i b) = Some res -> cmr_id res <> "") ->
  forall (nr : option NotificationRuleOptions) (f : nat),
    addNotificationRule (S (S (S f))) nr w = addNotificationRule 3 nr w
    /\ fst (addNotificationRule 3 nr w) <> OutOfFuel.
Proof.
  intros Hfix Hcm nr f.
  rewrite (addNotificationRule_default (S (S (S f))) nr w),
    (addNotificationRule_default 3 nr w).
  set (nr' := match nr with
              | Some nr => nr
              | None => emptyNotificationRuleOptions
              end).
  destruct (truthy_string (nro_userID nr')) as [uid|] eqn:Hu.
  - destruct (addNotificationRule_user_present nr' uid w (S f) Hcm Hu)
      as [E1 _].
    destruct (addNotificationRule_user_present nr' uid w 1 Hcm Hu)
      as [E2 Hret].
    rewrite E1, E2. split; [reflexivity | exact Hret].
  - rewrite (addNotificationRule_resolve_user (S (S f)) nr' w Hu),
      (addNotificationRule_resolve_user 2 nr' w Hu).
    destruct (load_fixture "profile" (backend w)) as [prof|] eqn:Hload.
    + assert (Hid : truthy_string
                      (nro_userID (nr_with_userID nr' (p_id prof)))
                    = Some (p_id prof)).
      { cbn. apply truthy_string_nonempty. apply Hfix. reflexivity. }
      exact (addNotificationRule_user_present _ _ _ f Hcm Hid).
    + split; [reflexivity | discriminate].
Qed.


(** The assumption on the test profile cannot be dropped: with a
    profile whose id is empty the retry never carries a [userID], and
    no amount of fuel ends the resolution. *)
Lemma addNotificationRule_without_profile_id (fuel : nat) :
  forall (nr : NotificationRuleOptions) (w : World G B) (prof : Profile),
    truthy_string (nro_userID nr) = None ->
    load_fixture "profile" (backend w) = Some prof ->
    p_id prof = "" ->
    fst (addNotificationRule fuel (Some nr) w) = OutOfFuel.
Proof.
  induction fuel as [|f IH]; intros nr w prof Hu Hload Hid.
  - reflexivity.
  - rewrite (addNotificationRule_resolve_user f nr w Hu), Hload.
    apply (IH _ _ prof).
    + cbn. rewrite Hid. reflexivity.
    + exact Hload.
    + exact Hid.
Qed.

End Provisioning.

(* ===================================================================== *)
(** ** The concrete generator and backend satisfy the assumptions *)
(* ===================================================================== *)

Lemma has_at_then_nonempty_app (s : string) :
  has_at_then_nonempty (s ++ "@example.com") = true.
Proof.
  induction s as [|a s IH].
  - reflexivity.
  - cbn [append has_at_then_nonempty].
    destruct (Ascii.eqb a "@"%char); [|exact IH].
    destruct s; reflexivity.
Qed.

Lemma counter_chance_laws : ChanceLaws Z.
Proof.
  split.
  - intros lo hi g Hle. cbn [chance_integer counter_chance fst].
    unfold CounterChance.integer. cbn [fst].
    pose proof (Z.mod_pos_bound g (hi - lo + 1)). lia.
  - intros g. cbn [chance_email counter_chance].
    unfold CounterChance.email. cbn [fst is_email].
    rewrite has_at_then_nonempty_app. reflexivity.
Qed.

Lemma store_contactMethod_ids (i : CreateUserContactMethodInput)
    (b : Store.t) (res : ContactMethodResponse) :
  fst (exec_createUserContactMethod i b) = Some res -> cmr_id res <> "".
Proof.
  cbn [exec_createUserContactMethod store_gateway
       Store.exec_createUserContactMethod fst].
  intros E. inversion E; subst res. cbn [cmr_id]. unfold Store.fresh_id.
  cbn [append]. discriminate.
Qed.

Lemma demo_profile_has_id (seed : Z) (p : Profile) :
  load_fixture "profile" (backend (demo_world seed)) = Some p -> p_id p <> "".
Proof.
  intros E. vm_compute in E. inversion E; subst p. discriminate.
Qed.

(* ===================================================================== *)
(** ** Runs on concrete inputs *)
(* ===================================================================== *)

Example number_to_string_runs :
  number_to_string 3000005 = "3000005"
  /\ number_to_string 0 = "0"
  /\ number_to_string (-12) = "-12".
Proof. repeat split. Qed.

Example insert_users_query_runs :
  insert_users_query
    [mkProfile "id-1" "ann" "ann@example.com" user;
     mkProfile "id-2" "bob" "bob@example.com" admin]
  = "insert into users (id, name, email, role) values('id-1', 'ann', 'ann@example.com', 'user'),('id-2', 'bob', 'bob@example.com', 'admin');".
Proof. reflexivity. Qed.

(** The whole chain on empty options: the fixture resolves the user, a
    contact method is created for that user, then the rule. *)
Example addNotificationRule_runs :
  log (snd (addNotificationRule 3 None (demo_world 5)))
  = [CallFixture "profile";
     CallCreateUserContactMethod
       (mkCreateUserContactMethodInput
          "profile-id" "SM CM ghijklmn" VOICE "+17633000005");
     CallCreateUserNotificationRule
       (mkCreateUserNotificationRuleInput "profile-id" "cm-1" 8)].
Proof. vm_compute. reflexivity. Qed.

(** C2, at [{userID: "profile-id", contactMethodID: "cm-1",
    delayMinutes: 0}]: the supplied delay [0] is falsy for [||], so the
    mutation is sent, and the rule created, with the generator's draw
    (here [7]) in its place. *)
Theorem addNotificationRule_zero_delay_replaced :
  exists r w',
    addNotificationRule 1
      (Some (mkNotificationRuleOptions
               (Some "profile-id") (Some 0) (Some "cm-1") None))
      (world_with_contactMethod 7)
    = (Done r, w')
    /\ log w'
       = [CallCreateUserNotificationRule
            (mkCreateUserNotificationRuleInput "profile-id" "cm-1" 7)]
    /\ nr_delayMinutes r = 7.
Proof. do 2 eexists. split; [vm_compute; reflexivity|]. split; reflexivity. Qed.

(** C3, at [[{name: ""}]]: the supplied name is the empty string, and
    the returned profile carries a generated word instead. *)
Lemma createManyUsers_empty_name_replaced :
  uo_name (mkUserOptions (Some "") None None) = Some ""
  /\ fst (createManyUsers [mkUserOptions (Some "") None None] (demo_world 0))
     = Done [mkProfile "guid-0" "bcdefghijklm" "ucdefg@example.com" user]
  /\ "bcdefghijklm" <> "".
Proof. split; [reflexivity|]. split; [vm_compute; reflexivity | discriminate]. Qed.

(** C6, at [{userID: "profile-id", contactMethodID: ""}]: the supplied
    [contactMethodID] is the empty string, and a contact method is
    created all the same. *)
Lemma addNotificationRule_empty_contactMethodID_creates :
  nro_contactMethodID
    (mkNotificationRuleOptions (Some "profile-id") None (Some "") None)
  = Some ""
  /\ log (snd (addNotificationRule 3
                 (Some (mkNotificationRuleOptions
                          (Some "profile-id") None (Some "") None))
                 (demo_world 5)))
     = [CallCreateUserContactMethod
          (mkCreateUserContactMethodInput
             "profile-id" "SM CM ghijklmn" VOICE "+17633000005");
        CallCreateUserNotificationRule
          (mkCreateUserNotificationRuleInput "profile-id" "cm-1" 8)].
Proof. split; [reflexivity | vm_compute; reflexivity]. Qed.

(** The assumption on the created contact methods cannot be dropped
    either: when the backend answers the creation with an empty id, the
    retry carries no truthy [contactMethodID] and creates again. *)
Lemma addNotificationRule_without_contactMethod_id (fuel : nat) :
  forall (nr : NotificationRuleOptions) (w : World Z BlankIds) (uid : string),
    truthy_string (nro_userID nr) = Some uid ->
    truthy_string (nro_contactMethodID nr) = None ->
    fst (addNotificationRule fuel (Some nr) w) = OutOfFuel.
Proof.
  induction fuel as [|f IH]; intros nr w uid Hu Hc.
  - reflexivity.
  - rewrite (addNotificationRule_resolve_contactMethod f nr uid w Hu Hc).
    destruct (addContactMethod_with_userID f (nested_cm_with_userID nr uid)
                uid w (nested_cm_userID nr uid Hu))
      as [Eoof | (j & g' & E & _)].
    + rewrite Eoof. reflexivity.
    + rewrite E.
      cbn [exec_createUserContactMethod blank_id_gateway fst snd].
      apply (IH _ _ uid); [exact Hu | reflexivity].
Qed.


Lemma addNotificationRule_stamps_userID_witness :
  exists r,
    fst (addNotificationRule 3 None (demo_world 5)) = Done r
    /\ resolved_userID None (demo_world 5) = Some (nr_userID r)
    /\ cm_userID (nr_contactMethod r) = nr_userID r.
Proof.
  eexists. split; [vm_compute; reflexivity|].
  split.
  - refine (proj1 (addNotificationRule_stamps_userID
                     3 None (demo_world 5) _ _)).
    vm_compute. reflexivity.
  - refine (proj1 (proj2 (addNotificationRule_stamps_userID
                            3 None (demo_world 5) _ _))).
    vm_compute. reflexivity.
Defined.

Lemma createManyUsers_fails_atomically_witness :
  fst (createManyUsers [emptyUserOptions; emptyUserOptions] (db_down_world 0))
  = Failed RemoteError.
Proof.
  refine (proj1 (createManyUsers_fails_atomically
                   [emptyUserOptions; emptyUserOptions] (db_down_world 0) _)).
  vm_compute. reflexivity.
Defined.


Lemma addNotificationRule_uses_supplied_contactMethodID_witness :
  exists calls,
    log (snd (addNotificationRule 3
                (Some (mkNotificationRuleOptions None None (Some "cm-1") None))
                (world_with_contactMethod 5)))
    = (log (world_with_contactMethod 5) ++ calls)%list
    /\ (forall j, ~ In (CallCreateUserContactMethod j) calls).
Proof.
  destruct (addNotificationRule_uses_supplied_contactMethodID 3
              (mkNotificationRuleOptions None None (Some "cm-1") None)
              (world_with_contactMethod 5) "cm-1")
    as (calls & Hlog & Hnone & _).
  - reflexivity.
  - discriminate.
  - exists calls. split; assumption.
Defined.


Lemma createUser_completes_profile_witness :
  exists p g',
    p_name p = "Alice"
    /\ is_email (p_email p) = true
    /\ p_role p = user
    /\ createUser (Some (mkUserOptions (Some "Alice") None None))
         (demo_world 0)
       = (Done (Some p),
          mkWorld g' demo_store [CallSql (insert_users_query [p])]).
Proof.
  destruct (proj1 (createUser_completes_profile (CL := counter_chance_laws))
              (demo_world 0))
    as (p & g' & Hname & Hemail & Hrole & _ & Erun).
  exists p, g'. repeat split; try assumption.
Defined.

Lemma addContactMethod_synthesized_phone_witness :
  exists calls,
    log (snd (addContactMethod 2 None (demo_world 5))) = calls
    /\ (forall i, In (CallCreateUserContactMethod i) calls ->
        is_phone (cmi_value i) = true).
Proof.
  destruct (addContactMethod_synthesized_phone (CL := counter_chance_laws)
              2 None (demo_world 5))
    as (calls & Hlog & Hphone & _).
  - reflexivity.
  - exists calls. split; [exact Hlog|].
    intros i Hin. destruct (Hphone i Hin) as (n & _ & _ & _ & _ & H).
    exact H.
Defined.

Lemma addNotificationRule_contactMethod_owner_witness :
  exists calls,
    log (snd (addNotificationRule 3
                (Some (mkNotificationRuleOptions None (Some 10) None
                         (Some (mkContactMethodOptions
                                  (Some "someone-else") None (Some SMS) None))))
                (demo_world 5))) = calls
    /\ (forall j, In (CallCreateUserContactMethod j) calls ->
        Some "profile-id" = Some (cmi_userID j)).
Proof.
  destruct (addNotificationRule_contactMethod_owner 3
              (Some (mkNotificationRuleOptions None (Some 10) None
                       (Some (mkContactMethodOptions
                                (Some "someone-else") None (Some SMS) None))))
              (demo_world 5))
    as (calls & Hlog & Howner & _).
  exists calls. split; [exact Hlog|]. exact Howner.
Defined.

(* ===================================================================== *)
(** ** Contact methods: what reaches the mutation *)
(* ===================================================================== *)

Section ContactMethodInputs.

Context {G B : Type} {CH : Chance G} {GW : Gateway B}.

(** The ready run once more, with all of its input: the fields built
    from the options, and the state the generator is left in when only
    the phone number was drawn. *)
Lemma addContactMethod_ready_input (cm : ContactMethodOptions)
    (uid : string) (w : World G B) :
  truthy_string (cmo_userID cm) = Some uid ->
  exists i g',
    addContactMethod 1 (Some cm) w
    = (match fst (exec_createUserContactMethod i (backend w)) with
       | Some res => Done (stamp_contactMethod res uid)
       | None => Failed RemoteError
       end,
       mkWorld g' (snd (exec_createUserContactMethod i (backend w)))
         (log w ++ [CallCreateUserContactMethod i]))
    /\ cmi_userID i = uid
    /\ contact_input_from cm i
    /\ (forall s t,
          truthy_string (cmo_name cm) = Some s -> cmo_type cm = Some t ->
          g' = snd (chance_integer 3000000 3999999 (rng w))).
Proof.
  intros Hu. cbn [addContactMethod]. rewrite Hu.
  unfold bind, draw, or_else, ret, truthy_enum,
    cy_graphql2_createUserContactMethod, remote, contact_input_from.
  cbn [rng backend log].
  destruct (truthy_string (cmo_name cm)) as [name|];
    destruct (cmo_type cm) as [ty|];
    destruct (truthy_string (cmo_value cm)) as [v|];
    cbn [rng backend log];
    match goal with
    | |- context [CallCreateUserContactMethod ?i0] => exists i0
    end;
    eexists;
    (split;
     [match goal with
      | |- context [fst ?e] => destruct (fst e); reflexivity
      end|]);
    (split; [reflexivity|]);
    (split;
     [cbn [cmi_name cmi_type cmi_value];
      repeat split; try reflexivity; eexists; reflexivity
     |intros s t Hs Ht; first [reflexivity | discriminate]]).
Qed.

Lemma addContactMethod_with_userID_input (fuel : nat)
    (cm : ContactMethodOptions) (uid : string) (w : World G B) :
  truthy_string (cmo_userID cm) = Some uid ->
  addContactMethod fuel (Some cm) w = (OutOfFuel, w)
  \/ exists i g',
       addContactMethod fuel (Some cm) w
       = (match fst (exec_createUserContactMethod i (backend w)) with
          | Some res => Done (stamp_contactMethod res uid)
          | None => Failed RemoteError
          end,
          mkWorld g' (snd (exec_createUserContactMethod i (backend w)))
            (log w ++ [CallCreateUserContactMethod i]))
       /\ cmi_userID i = uid
       /\ contact_input_from cm i.
Proof.
  intros Hu. destruct fuel as [|f]; [left; reflexivity | right].
  rewrite (addContactMethod_ready_fuel f cm uid w Hu).
  destruct (addContactMethod_ready_input cm uid w Hu)
    as (i & g' & E & Hi & Hin & _).
  exists i, g'. split; [exact E | split; [exact Hi | exact Hin]].
Qed.

Lemma addContactMethod_trace (fuel : nat) :
  forall (cm : option ContactMethodOptions) (w : World G B),
  exists calls,
    log (snd (addContactMethod fuel cm w)) = (log w ++ calls)%list
    /\ Forall (contact_call_shape
                 (match cm with
                  | Some cm => cm
                  | None => emptyContactMethodOptions
                  end)) calls.
Proof.
  induction fuel as [|f IH]; intros cm w.
  { exists []. cbn. rewrite app_nil_r. split; [reflexivity | constructor]. }
  rewrite (addContactMethod_default (S f) cm w).
  set (cm' := match cm with
              | Some cm => cm
              | None => emptyContactMethodOptions
              end).
  destruct (truthy_string (cmo_userID cm')) as [uid|] eqn:Hu.
  - rewrite (addContactMethod_ready_fuel f cm' uid w Hu).
    destruct (addContactMethod_ready_input cm' uid w Hu)
      as (i & g' & E & _ & Hin & _).
    rewrite E. exists [CallCreateUserContactMethod i].
    split; [reflexivity|]. constructor; [exact Hin | constructor].
  - rewrite (addContactMethod_resolve f cm' w Hu).
    destruct (load_fixture "profile" (backend w)) as [prof|].
    + match goal with
      | |- context [addContactMethod f ?c ?w1] =>
          destruct (IH c w1) as (calls & Hlog & Hok)
      end.
      exists (CallFixture "profile" :: calls). split.
      { rewrite Hlog. cbn [log]. rewrite <- app_assoc. reflexivity. }
      constructor; [split; [reflexivity | exact Hu]|].
      eapply Forall_impl; [|exact Hok].
      intros c. destruct c; cbn [contact_call_shape]; try tauto;
        try (intros [Hn _]; split; [exact Hn | exact Hu]);
        try (intros Hin; exact Hin).
    + exists [CallFixture "profile"]. split; [reflexivity|].
      constructor; [split; [reflexivity | exact Hu] | constructor].
Qed.

(** X1: a contact method returned by [addContactMethod] carries the
    [userID] the creation was made with (the truthy [userID] of the
    options, or else the id of the test profile), which is the [userID]
    of the creation mutation that closes the run; its other fields are
    those of the backend's answer to that mutation. *)
Theorem addContactMethod_stamps_userID (fuel : nat) :
  forall (cm : option ContactMethodOptions) (w : World G B)
         (c : ContactMethod),
    fst (addContactMethod fuel cm w) = Done c ->
    resolved_contact_userID cm w = Some (cm_userID c)
    /\ exists i pre res,
         log (snd (addContactMethod fuel cm w))
         = (log w ++ pre ++ [CallCreateUserContactMethod i])%list
         /\ cmi_userID i = cm_userID c
         /\ fst (exec_createUserContactMethod i (backend w)) = Some res
         /\ c = stamp_contactMethod res (cm_userID c).
Proof.
  induction fuel as [|f IH]; intros cm w c.
  { intros E. discriminate E. }
  rewrite (addContactMethod_default (S f) cm w).
  unfold resolved_contact_userID.
  set (cm' := match cm with
              | Some cm => cm
              | None => emptyContactMethodOptions
              end).
  destruct (truthy_string (cmo_userID cm')) as [uid|] eqn:Hu.
  - rewrite (addContactMethod_ready_fuel f cm' uid w Hu).
    destruct (addContactMethod_ready_input cm' uid w Hu)
      as (i & g' & E & Hi & _).
    rewrite E. cbn [fst snd log]. intros Ec.
    destruct (fst (exec_createUserContactMethod i (backend w)))
      as [res|] eqn:Hres; [|discriminate Ec].
    inversion Ec; subst c. cbn [stamp_contactMethod cm_userID].
    split; [reflexivity|].
    exists i, [], res. repeat split; assumption.
  - rewrite (addContactMethod_resolve f cm' w Hu).
    destruct (load_fixture "profile" (backend w)) as [prof|] eqn:Hload;
      [|intros E; discriminate E].
    intros Ec. apply IH in Ec. destruct Ec as (Hres & i & pre & res & Hc).
    destruct Hc as (Hlog & Hi & Hex & Hc).
    unfold resolved_contact_userID in Hres.
    cbn [cm_with_userID cmo_userID backend] in Hres.
    assert (Hid : p_id prof = cm_userID c).
    { destruct (truthy_string (Some (p_id prof))) as [s|] eqn:Hs.
      - apply truthy_string_Some in Hs. destruct Hs as [Hs _].
        inversion Hs; subst s. inversion Hres. reflexivity.
      - rewrite Hload in Hres. inversion Hres. reflexivity. }
    split; [cbn; rewrite Hid; reflexivity|].
    exists i, (CallFixture "profile" :: pre), res.
    split; [|split; [exact Hi | split; [exact Hex | exact Hc]]].
    rewrite Hlog. cbn [log]. rewrite <- app_assoc. reflexivity.
Qed.

(** X2: in every creation mutation [addContactMethod] issues, on any
    path, a name and a value that the options carry non-empty and a
    type that they carry are sent as they are; a missing or empty name
    is ["SM CM "] followed by a generated word of length 8 asked from
    the generator, a missing type is the generator's pick among [SMS]
    and [VOICE]. *)
Theorem addContactMethod_passes_options
    (fuel : nat) (cm : option ContactMethodOptions) (w : World G B) :
  exists calls,
    log (snd (addContactMethod fuel cm w)) = (log w ++ calls)%list
    /\ forall i, In (CallCreateUserContactMethod i) calls ->
       let cm' := match cm with
                  | Some cm => cm
                  | None => emptyContactMethodOptions
                  end in
       (forall s, cmo_name cm' = Some s -> s <> "" -> cmi_name i = s)
       /\ (truthy_string (cmo_name cm') = None ->
           exists g : G, cmi_name i = "SM CM " ++ fst (chance_word 8 g))
       /\ (forall t, cmo_type cm' = Some t -> cmi_type i = t)
       /\ (cmo_type cm' = None ->
           exists g : G, cmi_type i = fst (chance_pickone SMS [VOICE] g))
       /\ (forall v, cmo_value cm' = Some v -> v <> "" -> cmi_value i = v).
Proof.
  destruct (addContactMethod_trace fuel cm w) as (calls & Hlog & Hok).
  exists calls. split; [exact Hlog|].
  intros i Hin cm'. rewrite Forall_forall in Hok. apply Hok in Hin.
  cbn [contact_call_shape] in Hin. fold cm' in Hin.
  destruct Hin as (Hname & Htype & Hvalue).
  split; [|split; [|split; [|split]]].
  - intros s Hs Hne. rewrite Hs, (truthy_string_nonempty s Hne) in Hname.
    exact Hname.
  - intros Hnone. rewrite Hnone in Hname. exact Hname.
  - intros t Ht. rewrite Ht in Htype. exact Htype.
  - intros Hnone. rewrite Hnone in Htype. exact Htype.
  - intros v Hv Hne. rewrite Hv, (truthy_string_nonempty v Hne) in Hvalue.
    exact Hvalue.
Qed.

(** X3: the phone number is drawn before the options are looked at:
    with a [userID], a name, a type and a value all supplied non-empty,
    the mutation carries exactly the supplied fields, nothing is
    synthesized, and still the generator is left one [c.integer] draw
    further. *)
Theorem addContactMethod_always_draws_phone
    (cm : ContactMethodOptions) (uid name value : string)
    (type : ContactMethodType) (w : World G B) (f : nat) :
  truthy_string (cmo_userID cm) = Some uid ->
  truthy_string (cmo_name cm) = Some name ->
  cmo_type cm = Some type ->
  truthy_string (cmo_value cm) = Some value ->
  log (snd (addContactMethod (S f) (Some cm) w))
  = (log w ++ [CallCreateUserContactMethod
                 (mkCreateUserContactMethodInput uid name type value)])%list
  /\ rng (snd (addContactMethod (S f) (Some cm) w))
     = snd (chance_integer 3000000 3999999 (rng w)).
Proof.
  intros Hu Hn Ht Hv.
  rewrite (addContactMethod_ready_fuel f cm uid w Hu).
  destruct (addContactMethod_ready_input cm uid w Hu)
    as (i & g' & E & Hi & (Hname & Htype & Hvalue) & Hg).
  rewrite Hn in Hname. rewrite Ht in Htype. rewrite Hv in Hvalue.
  rewrite E. cbn [snd log rng]. split.
  - destruct i as [iu iname itype ivalue]. cbn in Hi, Hname, Htype, Hvalue.
    subst. reflexivity.
  - exact (Hg name type Hn Ht).
Qed.

End ContactMethodInputs.

(* ===================================================================== *)
(** ** Notification rules: what reaches the mutations *)
(* ===================================================================== *)

Section NotificationRuleInputs.

Context {G B : Type} {CH : Chance G} {GW : Gateway B}.

Lemma contact_input_from_fields (cm : ContactMethodOptions)
    (i : CreateUserContactMethodInput) :
  contact_input_from (G := G) cm i ->
  (forall s, cmo_name cm = Some s -> s <> "" -> cmi_name i = s)
  /\ (truthy_string (cmo_name cm) = None ->
      exists g : G, cmi_name i = "SM CM " ++ fst (chance_word 8 g))
  /\ (forall t, cmo_type cm = Some t -> cmi_type i = t)
  /\ (cmo_type cm = None ->
      exists g : G, cmi_type i = fst (chance_pickone SMS [VOICE] g))
  /\ (forall v, cmo_value cm = Some v -> v <> "" -> cmi_value i = v).
Proof.
  intros (Hname & Htype & Hvalue).
  split; [|split; [|split; [|split]]].
  - intros s Hs Hne. rewrite Hs, (truthy_string_nonempty s Hne) in Hname.
    exact Hname.
  - intros Hnone. rewrite Hnone in Hname. exact Hname.
  - intros t Ht. rewrite Ht in Htype. exact Htype.
  - intros Hnone. rewrite Hnone in Htype. exact Htype.
  - intros v Hv Hne. rewrite Hv, (truthy_string_nonempty v Hne) in Hvalue.
    exact Hvalue.
Qed.

Lemma rule_call_shape_with_userID (nr : NotificationRuleOptions)
    (id : string) (c : Call) :
  truthy_string (nro_userID nr) = None ->
  rule_call_shape (G := G) (nr_with_userID nr id) c ->
  rule_call_shape (G := G) nr c.
Proof.
  intros Hu. destruct c; cbn [rule_call_shape]; try tauto;
    try (intros [Hn _]; split; [exact Hn | exact Hu]);
    try (intros Hin; exact Hin).
Qed.

Lemma rule_call_shape_with_contactMethodID (nr : NotificationRuleOptions)
    (id : string) (c : Call) :
  truthy_string (nro_contactMethodID nr) = None ->
  rule_call_shape (G := G) (nr_with_contactMethodID nr id) c ->
  rule_call_shape (G := G) nr c.
Proof.
  intros Hc. destruct c; cbn [rule_call_shape]; try tauto;
    try (intros [_ Hin]; split; [exact Hc | exact Hin]);
    try (intros Hin; exact Hin).
Qed.

Lemma addNotificationRule_trace (fuel : nat) :
  forall (nr : option NotificationRuleOptions) (w : World G B),
  exists calls,
    log (snd (addNotificationRule fuel nr w)) = (log w ++ calls)%list
    /\ Forall (rule_call_shape
                 (match nr with
                  | Some nr => nr
                  | None => emptyNotificationRuleOptions
                  end)) calls.
Proof.
  induction fuel as [|f IH]; intros nr w.
  { exists []. cbn. rewrite app_nil_r. split; [reflexivity | constructor]. }
  rewrite (addNotificationRule_default (S f) nr w).
  set (nr' := match nr with
              | Some nr => nr
              | None => emptyNotificationRuleOptions
              end).
  destruct (truthy_string (nro_userID nr')) as [uid|] eqn:Hu.
  - destruct (truthy_string (nro_contactMethodID nr')) as [c|] eqn:Hc.
    + rewrite (addNotificationRule_ready_fuel f nr' uid c w Hu Hc).
      destruct (addNotificationRule_ready nr' uid c w Hu Hc)
        as (i & g' & E & _ & _ & Hd).
      rewrite E. exists [CallCreateUserNotificationRule i].
      split; [reflexivity|]. constructor; [|constructor].
      cbn [rule_call_shape]. rewrite Hd.
      destruct (truthy_number (nro_delayMinutes nr')); [reflexivity|].
      eexists. reflexivity.
    + rewrite (addNotificationRule_resolve_contactMethod f nr' uid w Hu Hc).
      destruct (addContactMethod_with_userID_input f
                  (nested_cm_with_userID nr' uid) uid w
                  (nested_cm_userID nr' uid Hu))
        as [Eoof | (j & g' & Ecm & _ & Hin)].
      * rewrite Eoof. exists []. cbn. rewrite app_nil_r.
        split; [reflexivity | constructor].
      * rewrite Ecm.
        assert (Hj : rule_call_shape (G := G) nr'
                       (CallCreateUserContactMethod j)).
        { cbn [rule_call_shape]. split; [exact Hc | exact Hin]. }
        destruct (fst (exec_createUserContactMethod j (backend w)))
          as [res|].
        -- match goal with
           | |- context [addNotificationRule f ?n ?w1] =>
               destruct (IH n w1) as (calls & Hlog & Hok)
           end.
           exists (CallCreateUserContactMethod j :: calls). split.
           { rewrite Hlog. cbn [log]. rewrite <- app_assoc. reflexivity. }
           constructor; [exact Hj|].
           eapply Forall_impl; [|exact Hok].
           intros c. apply rule_call_shape_with_contactMethodID. exact Hc.
        -- exists [CallCreateUserContactMethod j]. cbn [fst snd log].
           split; [reflexivity|]. constructor; [exact Hj | constructor].
  - rewrite (addNotificationRule_resolve_user f nr' w Hu).
    destruct (load_fixture "profile" (backend w)) as [prof|].
    + match goal with
      | |- context [addNotificationRule f ?n ?w1] =>
          destruct (IH n w1) as (calls & Hlog & Hok)
      end.
      exists (CallFixture "profile" :: calls). split.
      { rewrite Hlog. cbn [log]. rewrite <- app_assoc. reflexivity. }
      constructor; [split; [reflexivity | exact Hu]|].
      eapply Forall_impl; [|exact Hok].
      intros c. apply rule_call_shape_with_userID. exact Hu.
    + exists [CallFixture "profile"]. split; [reflexivity|].
      constructor; [split; [reflexivity | exact Hu] | constructor].
Qed.

(** X4: a supplied non-empty [userID] is never looked up again: neither
    [addContactMethod] nor [addNotificationRule] loads the fixture, on
    any path; [addContactMethod] then issues the creation mutation as
    its only gateway call. *)
Theorem supplied_userID_skips_fixture (uid : string) :
  uid <> "" ->
  (forall (f : nat) (cm : ContactMethodOptions) (w : World G B),
     cmo_userID cm = Some uid ->
     exists i,
       log (snd (addContactMethod (S f) (Some cm) w))
       = (log w ++ [CallCreateUserContactMethod i])%list
       /\ cmi_userID i = uid)
  /\ (forall (fuel : nat) (nr : NotificationRuleOptions) (w : World G B),
        nro_userID nr = Some uid ->
        exists calls,
          log (snd (addNotificationRule fuel (Some nr) w))
          = (log w ++ calls)%list
          /\ forall name, ~ In (CallFixture name) calls).
Proof.
  intros Hne. split.
  - intros f cm w Hcm.
    assert (Hu : truthy_string (cmo_userID cm) = Some uid).
    { rewrite Hcm. apply truthy_string_nonempty. exact Hne. }
    rewrite (addContactMethod_ready_fuel f cm uid w Hu).
    destruct (addContactMethod_ready_input cm uid w Hu)
      as (i & g' & E & Hi & _).
    exists i. rewrite E. split; [reflexivity | exact Hi].
  - intros fuel nr w Hnr.
    destruct (addNotificationRule_trace fuel (Some nr) w)
      as (calls & Hlog & Hok).
    exists calls. split; [exact Hlog|].
    intros name Hin. rewrite Forall_forall in Hok. apply Hok in Hin.
    cbn [rule_call_shape] in Hin. destruct Hin as [_ Habs].
    rewrite Hnr, (truthy_string_nonempty uid Hne) in Habs.
    discriminate Habs.
Qed.

(** With both ids truthy and no truthy delay, the delay is drawn from
    the generator state the command starts in, and the generator is left
    one draw further. *)
Lemma addNotificationRule_ready_draw (nr : NotificationRuleOptions)
    (uid cmid : string) (w : World G B) :
  truthy_string (nro_userID nr) = Some uid ->
  truthy_string (nro_contactMethodID nr) = Some cmid ->
  truthy_number (nro_delayMinutes nr) = None ->
  addNotificationRule 1 (Some nr) w
  = (match fst (exec_createUserNotificationRule
                  (mkCreateUserNotificationRuleInput uid cmid
                     (fst (chance_integer 0 15 (rng w))))
                  (backend w)) with
     | Some res => Done (stamp_notificationRule res uid)
     | None => Failed RemoteError
     end,
     mkWorld (snd (chance_integer 0 15 (rng w)))
       (snd (exec_createUserNotificationRule
               (mkCreateUserNotificationRuleInput uid cmid
                  (fst (chance_integer 0 15 (rng w))))
               (backend w)))
       (log w ++ [CallCreateUserNotificationRule
                    (mkCreateUserNotificationRuleInput uid cmid
                       (fst (chance_integer 0 15 (rng w))))])).
Proof.
  intros Hu Hc Hd. cbn [addNotificationRule]. rewrite Hu, Hc, Hd.
  unfold bind, draw, or_else, ret,
    cy_graphql2_createUserNotificationRule, remote.
  cbn [rng backend log].
  match goal with
  | |- context [fst ?e] =>
      match e with
      | exec_createUserNotificationRule _ _ => destruct (fst e); reflexivity
      end
  end.
Qed.

(** On any path, a rule mutation sent without a truthy delay in the
    options carries the draw that took the generator to the state the
    run ends in. *)
Lemma addNotificationRule_delay_drawn (fuel : nat) :
  forall (nr : option NotificationRuleOptions) (w : World G B),
    truthy_number
      (nro_delayMinutes (match nr with
                         | Some nr => nr
                         | None => emptyNotificationRuleOptions
                         end)) = None ->
    exists calls,
      log (snd (addNotificationRule fuel nr w)) = (log w ++ calls)%list
      /\ forall i, In (CallCreateUserNotificationRule i) calls ->
         exists g,
           nri_delayMinutes i = fst (chance_integer 0 15 g)
           /\ rng (snd (addNotificationRule fuel nr w))
              = snd (chance_integer 0 15 g).
Proof.
  induction fuel as [|f IH]; intros nr w Hd.
  { exists []. cbn. rewrite app_nil_r. split; [reflexivity|].
    intros i []. }
  rewrite (addNotificationRule_default (S f) nr w).
  set (nr' := match nr with
              | Some nr => nr
              | None => emptyNotificationRuleOptions
              end) in *.
  destruct (truthy_string (nro_userID nr')) as [uid|] eqn:Hu.
  - destruct (truthy_string (nro_contactMethodID nr')) as [c|] eqn:Hc.
    + rewrite (addNotificationRule_ready_fuel f nr' uid c w Hu Hc).
      rewrite (addNotificationRule_ready_draw nr' uid c w Hu Hc Hd).
      cbn [snd log rng]. eexists. split; [reflexivity|].
      intros i [E | []]. inversion E; subst i. cbn [nri_delayMinutes].
      exists (rng w). split; reflexivity.
    + rewrite (addNotificationRule_resolve_contactMethod f nr' uid w Hu Hc).
      destruct (addContactMethod_with_userID_input f
                  (nested_cm_with_userID nr' uid) uid w
                  (nested_cm_userID nr' uid Hu))
        as [Eoof | (j & g' & Ecm & _)].
      * rewrite Eoof. exists []. cbn. rewrite app_nil_r.
        split; [reflexivity|]. intros i [].
      * rewrite Ecm.
        destruct (fst (exec_createUserContactMethod j (backend w)))
          as [res|].
        -- match goal with
           | |- context [addNotificationRule f ?n ?w1] =>
               destruct (IH n w1 Hd) as (calls & Hlog & Hdraw)
           end.
           exists (CallCreateUserContactMethod j :: calls). split.
           { rewrite Hlog. cbn [log]. rewrite <- app_assoc. reflexivity. }
           intros i [E | Hin]; [discriminate E | exact (Hdraw i Hin)].
        -- exists [CallCreateUserContactMethod j]. cbn [fst snd log].
           split; [reflexivity|]. intros i [E | []]. discriminate E.
  - rewrite (addNotificationRule_resolve_user f nr' w Hu).
    destruct (load_fixture "profile" (backend w)) as [prof|].
    + match goal with
      | |- context [addNotificationRule f ?n ?w1] =>
          destruct (IH n w1 Hd) as (calls & Hlog & Hdraw)
      end.
      exists (CallFixture "profile" :: calls). split.
      { rewrite Hlog. cbn [log]. rewrite <- app_assoc. reflexivity. }
      intros i [E | Hin]; [discriminate E | exact (Hdraw i Hin)].
    + exists [CallFixture "profile"]. split; [reflexivity|].
      intros i [E | []]. discriminate E.
Qed.

(** X5: in every rule-creation mutation [addNotificationRule] issues, on
    any path, a delay that the options carry and that is not [0] is
    sent as it is; when the options carry no delay, or [0], the delay
    sent is the draw [c.integer({ min: 0, max: 15 })] that took the
    generator to the state the run ends in, hence a number of 0..15;
    with both ids supplied that draw is made from the state the command
    starts in. *)
Theorem addNotificationRule_delay_sent {CL : ChanceLaws G}
    (fuel : nat) (nr : option NotificationRuleOptions) (w : World G B) :
  (exists calls,
     log (snd (addNotificationRule fuel nr w)) = (log w ++ calls)%list
     /\ forall i, In (CallCreateUserNotificationRule i) calls ->
        let nr' := match nr with
                   | Some nr => nr
                   | None => emptyNotificationRuleOptions
                   end in
        (forall d, nro_delayMinutes nr' = Some d -> d <> 0 ->
           nri_delayMinutes i = d)
        /\ (nro_delayMinutes nr' = None \/ nro_delayMinutes nr' = Some 0 ->
            (exists g,
               nri_delayMinutes i = fst (chance_integer 0 15 g)
               /\ rng (snd (addNotificationRule fuel nr w))
                  = snd (chance_integer 0 15 g))
            /\ 0 <= nri_delayMinutes i <= 15))
  /\ (forall (opts : NotificationRuleOptions) (uid cmid : string) (f : nat),
        truthy_string (nro_userID opts) = Some uid ->
        truthy_string (nro_contactMethodID opts) = Some cmid ->
        nro_delayMinutes opts = None \/ nro_delayMinutes opts = Some 0 ->
        log (snd (addNotificationRule (S f) (Some opts) w))
        = (log w ++ [CallCreateUserNotificationRule
                       (mkCreateUserNotificationRuleInput uid cmid
                          (fst (chance_integer 0 15 (rng w))))])%list
        /\ rng (snd (addNotificationRule (S f) (Some opts) w))
           = snd (chance_integer 0 15 (rng w))).
Proof.
  split.
  - destruct (addNotificationRule_trace fuel nr w) as (calls & Hlog & Hok).
    exists calls. split; [exact Hlog|].
    intros i Hin nr'. split.
    + rewrite Forall_forall in Hok. apply Hok in Hin.
      cbn [rule_call_shape] in Hin. fold nr' in Hin.
      intros d Hd Hne. rewrite Hd in Hin. cbn [truthy_number] in Hin.
      destruct (Z.eqb_spec d 0) as [E|_]; [contradiction|]. exact Hin.
    + intros Hnone.
      assert (Ht : truthy_number (nro_delayMinutes nr') = None).
      { destruct Hnone as [-> | ->]; reflexivity. }
      destruct (addNotificationRule_delay_drawn fuel nr w Ht)
        as (calls' & Hlog' & Hdraw).
      rewrite Hlog in Hlog'. apply app_inv_head in Hlog'. subst calls'.
      destruct (Hdraw i Hin) as (g & Hg & Hrng).
      split; [exists g; split; [exact Hg | exact Hrng]|].
      rewrite Hg. apply chance_integer_range. lia.
  - intros opts uid cmid f Hu Hc Hnone.
    assert (Ht : truthy_number (nro_delayMinutes opts) = None).
    { destruct Hnone as [-> | ->]; reflexivity. }
    rewrite (addNotificationRule_ready_fuel f opts uid cmid w Hu Hc).
    rewrite (addNotificationRule_ready_draw opts uid cmid w Hu Hc Ht).
    split; reflexivity.
Qed.

(** X6: the nested contact-method options of a rule reach the contact
    method that is created for it: in every contact-method creation
    [addNotificationRule] issues, a nested name and value supplied
    non-empty and a nested type are sent as they are, and what is
    missing is synthesized as [addContactMethod] does. *)
Theorem addNotificationRule_passes_nested_options
    (fuel : nat) (nr : option NotificationRuleOptions) (w : World G B) :
  exists calls,
    log (snd (addNotificationRule fuel nr w)) = (log w ++ calls)%list
    /\ forall j, In (CallCreateUserContactMethod j) calls ->
       let cm := match nro_contactMethod
                         (match nr with
                          | Some nr => nr
                          | None => emptyNotificationRuleOptions
                          end) with
                 | Some cm => cm
                 | None => emptyContactMethodOptions
                 end in
       (forall s, cmo_name cm = Some s -> s <> "" -> cmi_name j = s)
       /\ (truthy_string (cmo_name cm) = None ->
           exists g : G, cmi_name j = "SM CM " ++ fst (chance_word 8 g))
       /\ (forall t, cmo_type cm = Some t -> cmi_type j = t)
       /\ (cmo_type cm = None ->
           exists g : G, cmi_type j = fst (chance_pickone SMS [VOICE] g))
       /\ (forall v, cmo_value cm = Some v -> v <> "" -> cmi_value j = v).
Proof.
  destruct (addNotificationRule_trace fuel nr w) as (calls & Hlog & Hok).
  exists calls. split; [exact Hlog|].
  intros j Hin cm. rewrite Forall_forall in Hok. apply Hok in Hin.
  cbn [rule_call_shape] in Hin. destruct Hin as [_ Hin].
  apply contact_input_from_fields. exact Hin.
Qed.

(** With a truthy [userID] and no truthy [contactMethodID], two levels
    of fuel: the contact method is created first; when that fails the
    rule is not attempted, and when it gives a contact method with an
    id the rule mutation follows, for that id, on the backend state the
    creation left. *)
Lemma addNotificationRule_chain (nr : NotificationRuleOptions)
    (uid : string) (w : World G B) (f : nat) :
  truthy_string (nro_userID nr) = Some uid ->
  truthy_string (nro_contactMethodID nr) = None ->
  exists j,
    cmi_userID j = uid
    /\ match fst (exec_createUserContactMethod j (backend w)) with
       | None =>
           fst (addNotificationRule (S (S f)) (Some nr) w)
           = Failed RemoteError
           /\ log (snd (addNotificationRule (S (S f)) (Some nr) w))
              = (log w ++ [CallCreateUserContactMethod j])%list
       | Some res =>
           cmr_id res <> "" ->
           exists i,
             nri_userID i = uid
             /\ nri_contactMethodID i = cmr_id res
             /\ log (snd (addNotificationRule (S (S f)) (Some nr) w))
                = (log w ++ [CallCreateUserContactMethod j;
                             CallCreateUserNotificationRule i])%list
             /\ fst (addNotificationRule (S (S f)) (Some nr) w)
                = match fst (exec_createUserNotificationRule i
                               (snd (exec_createUserContactMethod j
                                       (backend w)))) with
                  | Some r => Done (stamp_notificationRule r uid)
                  | None => Failed RemoteError
                  end
       end.
Proof.
  intros Hu Hc.
  rewrite (addNotificationRule_resolve_contactMethod (S f) nr uid w Hu Hc).
  pose proof (nested_cm_userID nr uid Hu) as Hn.
  rewrite (addContactMethod_ready_fuel f _ _ w Hn).
  destruct (addContactMethod_ready_input _ _ w Hn) as (j & g' & E & Hj & _).
  exists j. split; [exact Hj|]. rewrite E.
  destruct (fst (exec_createUserContactMethod j (backend w))) as [res|].
  - intros Hid. cbn [stamp_contactMethod cm_id].
    assert (Hu' : truthy_string
                    (nro_userID (nr_with_contactMethodID nr (cmr_id res)))
                  = Some uid) by exact Hu.
    assert (Hc' : truthy_string
                    (nro_contactMethodID
                       (nr_with_contactMethodID nr (cmr_id res)))
                  = Some (cmr_id res)).
    { cbn. apply truthy_string_nonempty. exact Hid. }
    rewrite (addNotificationRule_ready_fuel f _ _ _ _ Hu' Hc').
    match goal with
    | |- context [addNotificationRule 1 ?n ?w1] =>
        destruct (addNotificationRule_ready _ _ _ w1 Hu' Hc')
          as (i & g2 & E2 & Hi1 & Hi2 & _)
    end.
    exists i. rewrite E2. cbn [fst snd log backend].
    split; [exact Hi1|]. split; [exact Hi2|]. split; [|reflexivity].
    rewrite <- app_assoc. reflexivity.
  - split; reflexivity.
Qed.

(** X7: when [addNotificationRule] has to create the contact method and
    the backend answers with a contact method that has an id, the rule
    mutation is issued right after the creation, for the same user and
    for the id the backend returned, on the backend state the creation
    left; the outcome is that of the rule mutation, so a rule mutation
    that fails leaves the created contact method behind. *)
Theorem addNotificationRule_references_created_contactMethod
    (nr : NotificationRuleOptions) (uid : string) (w : World G B) (f : nat) :
  truthy_string (nro_userID nr) = Some uid ->
  truthy_string (nro_contactMethodID nr) = None ->
  exists j,
    cmi_userID j = uid
    /\ forall res,
         fst (exec_createUserContactMethod j (backend w)) = Some res ->
         cmr_id res <> "" ->
         exists i,
           nri_userID i = uid
           /\ nri_contactMethodID i = cmr_id res
           /\ log (snd (addNotificationRule (S (S f)) (Some nr) w))
              = (log w ++ [CallCreateUserContactMethod j;
                           CallCreateUserNotificationRule i])%list
           /\ fst (addNotificationRule (S (S f)) (Some nr) w)
              = match fst (exec_createUserNotificationRule i
                             (snd (exec_createUserContactMethod j
                                     (backend w)))) with
                | Some r => Done (stamp_notificationRule r uid)
                | None => Failed RemoteError
                end.
Proof.
  intros Hu Hc.
  destruct (addNotificationRule_chain nr uid w f Hu Hc) as (j & Hj & Hrun).
  exists j. split; [exact Hj|]. intros res Hres Hid.
  rewrite Hres in Hrun. exact (Hrun Hid).
Qed.

(** X8: when the creation of the contact method fails,
    [addNotificationRule] fails with that failure and never issues the
    rule mutation: the creation is the only call of the run. *)
Theorem addNotificationRule_stops_on_failed_contactMethod
    (nr : NotificationRuleOptions) (uid : string) (w : World G B) (f : nat) :
  truthy_string (nro_userID nr) = Some uid ->
  truthy_string (nro_contactMethodID nr) = None ->
  (forall j, fst (exec_createUserContactMethod j (backend w)) = None) ->
  fst (addNotificationRule (S (S f)) (Some nr) w) = Failed RemoteError
  /\ exists j,
       cmi_userID j = uid
       /\ log (snd (addNotificationRule (S (S f)) (Some nr) w))
          = (log w ++ [CallCreateUserContactMethod j])%list.
Proof.
  intros Hu Hc Hfail.
  destruct (addNotificationRule_chain nr uid w f Hu Hc) as (j & Hj & Hrun).
  rewrite (Hfail j) in Hrun. destruct Hrun as [Hout Hlog].
  split; [exact Hout|]. exists j. split; [exact Hj | exact Hlog].
Qed.

(** X9: when a [userID] is missing and the fixture cannot be loaded,
    both commands fail with the fixture failure, and the fixture load is
    the only call they have made: no mutation is issued. *)
Theorem missing_fixture_fails_before_any_mutation (w : World G B) (f : nat) :
  load_fixture "profile" (backend w) = None ->
  (forall cm : option ContactMethodOptions,
     truthy_string
       (cmo_userID (match cm with
                    | Some cm => cm
                    | None => emptyContactMethodOptions
                    end)) = None ->
     addContactMethod (S f) cm w
     = (Failed FixtureLoadError,
        mkWorld (rng w) (backend w) (log w ++ [CallFixture "profile"])))
  /\ (forall nr : option NotificationRuleOptions,
        truthy_string
          (nro_userID (match nr with
                       | Some nr => nr
                       | None => emptyNotificationRuleOptions
                       end)) = None ->
        addNotificationRule (S f) nr w
        = (Failed FixtureLoadError,
           mkWorld (rng w) (backend w) (log w ++ [CallFixture "profile"]))).
Proof.
  intros Hload. split.
  - intros cm Hu. rewrite (addContactMethod_default (S f) cm w).
    rewrite (addContactMethod_resolve f _ w Hu), Hload. reflexivity.
  - intros nr Hu. rewrite (addNotificationRule_default (S f) nr w).
    rewrite (addNotificationRule_resolve_user f _ w Hu), Hload. reflexivity.
Qed.

End NotificationRuleInputs.

(* ===================================================================== *)
(** ** User provisioning: what the backend has no say in *)
(* ===================================================================== *)

Section UserSynthesis.

Context {G B : Type} {CH : Chance G} {GW : Gateway B}.

Lemma synthesize_profile_same_rng (u : UserOptions) (w1 w2 : World G B) :
  rng w1 = rng w2 ->
  exists p g',
    synthesize_profile u w1 = (Done p, mkWorld g' (backend w1) (log w1))
    /\ synthesize_profile u w2 = (Done p, mkWorld g' (backend w2) (log w2)).
Proof.
  intros Hrng.
  unfold synthesize_profile, bind, draw, or_else, ret, truthy_enum.
  cbn [rng backend log]. rewrite Hrng.
  destruct (truthy_string (uo_name u)) as [name|];
    destruct (truthy_string (uo_email u)) as [email|];
    destruct (uo_role u) as [role|];
    cbn [rng backend log];
    do 2 eexists; split; reflexivity.
Qed.

Lemma mapM_synthesize_profile_same_rng (users : list UserOptions) :
  forall w1 w2 : World G B,
    rng w1 = rng w2 ->
    exists ps g',
      mapM synthesize_profile users w1
      = (Done ps, mkWorld g' (backend w1) (log w1))
      /\ mapM synthesize_profile users w2
         = (Done ps, mkWorld g' (backend w2) (log w2)).
Proof.
  induction users as [|u rest IH]; intros w1 w2 Hrng.
  - exists [], (rng w1). split.
    + destruct w1; reflexivity.
    + rewrite Hrng. destruct w2; reflexivity.
  - destruct (synthesize_profile_same_rng u w1 w2 Hrng)
      as (p & g1 & E1 & E2).
    destruct (IH (mkWorld g1 (backend w1) (log w1))
                 (mkWorld g1 (backend w2) (log w2)) eq_refl)
      as (ps & g2 & F1 & F2).
    exists (p :: ps), g2. cbn [mapM]. unfold bind at 1 3.
    rewrite E1, E2. unfold bind at 1 2. rewrite F1, F2. split; reflexivity.
Qed.

(** X10: the profiles [createManyUsers] returns, ids included, and the
    insert statement it sends are made from the options and the
    generator alone: two runs from the same generator state send the same
    statement and, when they succeed, return the same profiles, whatever
    the backend states are. *)
Theorem createManyUsers_profiles_from_generator
    (users : list UserOptions) (w1 w2 : World G B) :
  rng w1 = rng w2 ->
  exists ps,
    log (snd (createManyUsers users w1))
    = (log w1 ++ [CallSql (insert_users_query ps)])%list
    /\ log (snd (createManyUsers users w2))
       = (log w2 ++ [CallSql (insert_users_query ps)])%list
    /\ (forall ps1, fst (createManyUsers users w1) = Done ps1 -> ps1 = ps)
    /\ (forall ps2, fst (createManyUsers users w2) = Done ps2 -> ps2 = ps).
Proof.
  intros Hrng.
  destruct (mapM_synthesize_profile_same_rng users w1 w2 Hrng)
    as (ps & g' & E1 & E2).
  destruct (createManyUsers_run users w1) as (ps1 & g1 & _ & S1 & R1).
  destruct (createManyUsers_run users w2) as (ps2 & g2 & _ & S2 & R2).
  unfold synthesized_profiles in S1, S2. rewrite E1 in S1. rewrite E2 in S2.
  cbn in S1, S2. subst ps1 ps2.
  exists ps. rewrite R1, R2. cbn [fst snd log].
  split; [reflexivity|]. split; [reflexivity|]. split.
  - intros ps1 E.
    destruct (fst (exec_sql (insert_users_query ps) (backend w1)));
      inversion E; reflexivity.
  - intros ps2 E.
    destruct (fst (exec_sql (insert_users_query ps) (backend w2)));
      inversion E; reflexivity.
Qed.

(** X11: on the empty list [createManyUsers] still sends its statement,
    with no value tuple in it, draws nothing from the generator, and
    returns the empty list when the backend accepts the statement. *)
Theorem createManyUsers_empty_list (w : World G B) :
  createManyUsers [] w
  = (match fst (exec_sql "insert into users (id, name, email, role) values;"
                  (backend w)) with
     | Some _ => Done []
     | None => Failed RemoteError
     end,
     mkWorld (rng w)
       (snd (exec_sql "insert into users (id, name, email, role) values;"
               (backend w)))
       (log w ++ [CallSql "insert into users (id, name, email, role) values;"])).
Proof.
  unfold createManyUsers, bind. cbn [mapM]. unfold ret at 1.
  unfold cy_sql. rewrite remote_run.
  change (insert_users_query [])
    with "insert into users (id, name, email, role) values;".
  destruct (fst (exec_sql "insert into users (id, name, email, role) values;"
                   (backend w))); reflexivity.
Qed.

End UserSynthesis.

(* ===================================================================== *)
(** ** Cleanup: every run *)
(* ===================================================================== *)

Section CleanupRuns.

Context {G B : Type} {GW : Gateway B}.

Lemma forEach_deleteAll_step (id : string) (rest : list string)
    (w : World G B) :
  forEach (id :: rest)
    (fun cm => cy_graphql2_deleteAll [contactMethod_target cm]) w
  = match fst (exec_deleteAll [contactMethod_target id] (backend w)) with
    | Some _ =>
        forEach rest
          (fun cm => cy_graphql2_deleteAll [contactMethod_target cm])
          (mkWorld (rng w)
             (snd (exec_deleteAll [contactMethod_target id] (backend w)))
             (log w ++ [delete_call id]))
    | None =>
        (Failed RemoteError,
         mkWorld (rng w)
           (snd (exec_deleteAll [contactMethod_target id] (backend w)))
           (log w ++ [delete_call id]))
    end.
Proof.
  cbn [forEach]. unfold bind at 1. unfold cy_graphql2_deleteAll at 1.
  rewrite remote_run.
  destruct (fst (exec_deleteAll [contactMethod_target id] (backend w)));
    reflexivity.
Qed.

Lemma forEach_deleteAll_prefix (ids : list string) :
  forall w : World G B,
  exists k,
    (k <= List.length ids)%nat
    /\ log (snd (forEach ids
                   (fun cm => cy_graphql2_deleteAll [contactMethod_target cm])
                   w))
       = (log w ++ map delete_call (firstn k ids))%list
    /\ rng (snd (forEach ids
                   (fun cm => cy_graphql2_deleteAll [contactMethod_target cm])
                   w)) = rng w
    /\ (fst (forEach ids
               (fun cm => cy_graphql2_deleteAll [contactMethod_target cm]) w)
        = Done tt -> k = List.length ids)
    /\ fst (forEach ids
              (fun cm => cy_graphql2_deleteAll [contactMethod_target cm]) w)
       <> OutOfFuel.
Proof.
  induction ids as [|id rest IH]; intros w.
  - exists 0%nat. cbn. rewrite app_nil_r.
    repeat split; [lia | discriminate].
  - rewrite forEach_deleteAll_step.
    destruct (fst (exec_deleteAll [contactMethod_target id] (backend w))).
    + match goal with
      | |- context [forEach rest _ ?w1] =>
          destruct (IH w1) as (k & Hk & Hlog & Hrng & Hdone & Hoof)
      end.
      exists (S k). split; [cbn; lia|]. split.
      { rewrite Hlog. cbn [log firstn map]. rewrite <- app_assoc.
        reflexivity. }
      split; [rewrite Hrng; reflexivity|]. split.
      { intros E. cbn [List.length]. f_equal. exact (Hdone E). }
      exact Hoof.
    + exists 1%nat. cbn [fst snd log rng firstn map List.length].
      split; [lia|]. split; [reflexivity|]. split; [reflexivity|].
      split; intros E; discriminate E.
Qed.

(** X12: whatever happens, [clearContactMethods] leaves the generator
    alone, asks the query first, and deletes nothing but contact methods
    the query listed, in the order listed and at most once each: when
    the query fails nothing is deleted, and a run that completes has
    deleted all of them. *)
Theorem clearContactMethods_deletes_only_listed (id : string)
    (w : World G B) :
  rng (snd (clearContactMethods id w)) = rng w
  /\ fst (clearContactMethods id w) <> OutOfFuel
  /\ match fst (exec_contactMethodsQuery id (backend w)) with
     | None =>
         fst (clearContactMethods id w) = Failed RemoteError
         /\ log (snd (clearContactMethods id w))
            = (log w ++ [CallContactMethodsQuery id])%list
     | Some ids =>
         exists k,
           (k <= List.length ids)%nat
           /\ log (snd (clearContactMethods id w))
              = (log w ++ CallContactMethodsQuery id
                   :: map delete_call (firstn k ids))%list
           /\ (fst (clearContactMethods id w) = Done tt ->
               k = List.length ids)
     end.
Proof.
  rewrite clearContactMethods_run.
  destruct (fst (exec_contactMethodsQuery id (backend w))) as [ids|].
  - cbn zeta. destruct ids as [|i rest].
    + cbn. split; [reflexivity|]. split; [discriminate|].
      exists 0%nat. split; [lia|]. split; [reflexivity|]. reflexivity.
    + cbn [List.length Nat.eqb].
      match goal with
      | |- context [forEach (i :: rest) _ ?w1] =>
          destruct (forEach_deleteAll_prefix (i :: rest) w1)
            as (k & Hk & Hlog & Hrng & Hdone & Hoof)
      end.
      split; [rewrite Hrng; reflexivity|]. split; [exact Hoof|].
      exists k. split; [exact Hk|]. split; [|exact Hdone].
      rewrite Hlog. cbn [log]. rewrite <- app_assoc. reflexivity.
  - cbn. split; [reflexivity|]. split; [discriminate|].
    split; reflexivity.
Qed.

End CleanupRuns.

(* ===================================================================== *)
(** ** Resetting the test profile *)
(* ===================================================================== *)

Section ResetRuns.

Context {G B : Type} {GW : Gateway B} {UG : UserGateway B}.

Lemma clearContactMethods_returns (id : string) (w : World G B) :
  fst (clearContactMethods id w) <> OutOfFuel.
Proof.
  rewrite clearContactMethods_run.
  destruct (fst (exec_contactMethodsQuery id (backend w))) as [ids|];
    [|discriminate].
  cbn zeta. destruct (List.length ids =? 0)%nat; [discriminate|].
  match goal with
  | |- context [forEach ids _ ?w1] =>
      destruct (forEach_deleteAll_prefix ids w1) as (k & _ & _ & _ & _ & H)
  end.
  exact H.
Qed.

Lemma clearContactMethods_done_query (id : string) (w w' : World G B) :
  clearContactMethods id w = (Done tt, w') ->
  exists ids,
    fst (exec_contactMethodsQuery id (backend w)) = Some ids
    /\ log w'
       = (log w ++ CallContactMethodsQuery id :: map delete_call ids)%list.
Proof.
  intros E.
  destruct (fst (exec_contactMethodsQuery id (backend w))) as [ids|] eqn:Hq.
  - exists ids. split; [reflexivity|].
    exact (clearContactMethods_some id ids w w' Hq E).
  - rewrite clearContactMethods_run, Hq in E. discriminate E.
Qed.

(** With a profile in hand the command does not call itself. *)
Lemma resetProfile_with_profile (f : nat) (p : Profile)
    (rw : ResetWorld G B) :
  resetProfile (S f) (Some p) rw
  = match clearContactMethods (p_id p) (rw_world rw) with
    | (Done _, w') =>
        cy_graphql2_updateUser (update_input p)
          (mkResetWorld w' (rw_updates rw))
    | (Failed e, w') => (Failed e, mkResetWorld w' (rw_updates rw))
    | (OutOfFuel, w') => (OutOfFuel, mkResetWorld w' (rw_updates rw))
    end.
Proof. reflexivity. Qed.

Lemma resetProfile_without_profile (f : nat) (rw : ResetWorld G B) :
  resetProfile (S f) None rw
  = match load_fixture "profile" (backend (rw_world rw)) with
    | Some p =>
        resetProfile f (Some p)
          (mkResetWorld
             (mkWorld (rng (rw_world rw)) (backend (rw_world rw))
                (log (rw_world rw) ++ [CallFixture "profile"]))
             (rw_updates rw))
    | None =>
        (Failed FixtureLoadError,
         mkResetWorld
           (mkWorld (rng (rw_world rw)) (backend (rw_world rw))
              (log (rw_world rw) ++ [CallFixture "profile"]))
           (rw_updates rw))
    end.
Proof.
  cbn [resetProfile]. rewrite cy_fixture_run.
  destruct (load_fixture "profile" (backend (rw_world rw))); reflexivity.
Qed.

Lemma resetProfile_with_profile_returns (f : nat) (p : Profile)
    (rw : ResetWorld G B) :
  fst (resetProfile (S f) (Some p) rw) <> OutOfFuel.
Proof.
  rewrite resetProfile_with_profile.
  pose proof (clearContactMethods_returns (p_id p) (rw_world rw)) as Hret.
  destruct (clearContactMethods (p_id p) (rw_world rw)) as [[u|e|] w'].
  - unfold cy_graphql2_updateUser. cbn [rw_world].
    destruct (fst (exec_updateUser (update_input p) (backend w')));
      discriminate.
  - discriminate.
  - exfalso. apply Hret. reflexivity.
Qed.

(** X13: [resetProfile] ends on every input and in every environment
    within one retry: the profile the fixture gives is an object, so the
    retry takes the main path whatever its fields hold, and more fuel
    changes nothing. *)
Theorem resetProfile_terminates (f : nat) (prof : option Profile)
    (rw : ResetWorld G B) :
  resetProfile (S (S f)) prof rw = resetProfile 2 prof rw
  /\ fst (resetProfile 2 prof rw) <> OutOfFuel.
Proof.
  destruct prof as [p|].
  - split; [reflexivity|]. apply resetProfile_with_profile_returns.
  - rewrite (resetProfile_without_profile (S f) rw),
      (resetProfile_without_profile 1 rw).
    destruct (load_fixture "profile" (backend (rw_world rw))) as [p|].
    + split; [reflexivity|]. apply resetProfile_with_profile_returns.
    + split; [reflexivity | discriminate].
Qed.

Lemma resetProfile_with_profile_done (f : nat) (p : Profile)
    (rw : ResetWorld G B) :
  fst (resetProfile (S f) (Some p) rw) = Done tt ->
  exists ids w1,
    fst (exec_contactMethodsQuery (p_id p) (backend (rw_world rw)))
    = Some ids
    /\ clearContactMethods (p_id p) (rw_world rw) = (Done tt, w1)
    /\ log w1
       = (log (rw_world rw)
          ++ CallContactMethodsQuery (p_id p) :: map delete_call ids)%list
    /\ fst (exec_updateUser (update_input p) (backend w1)) = Some tt
    /\ snd (resetProfile (S f) (Some p) rw)
       = mkResetWorld
           (mkWorld (rng w1)
              (snd (exec_updateUser (update_input p) (backend w1)))
              (log w1))
           (rw_updates rw ++ [update_input p]).
Proof.
  rewrite resetProfile_with_profile.
  destruct (clearContactMethods (p_id p) (rw_world rw))
    as [[[]|e|] w'] eqn:E; try (intros H; discriminate H).
  destruct (clearContactMethods_done_query _ _ _ E) as (ids & Hq & Hlog).
  unfold cy_graphql2_updateUser. cbn [rw_world rw_updates].
  destruct (fst (exec_updateUser (update_input p) (backend w')))
    as [[]|] eqn:Hup; [|intros H; discriminate H].
  intros _. exists ids, w'. cbn [snd].
  split; [exact Hq|]. split; [reflexivity|]. split; [exact Hlog|].
  split; [exact Hup | reflexivity].
Qed.

(** X14: a [resetProfile] that succeeds has loaded the fixture when no
    profile was given, then run the cleanup of the profile to its end
    (the query, then one deletion per contact method listed, as the log
    has them), and has issued exactly one [updateUser], carrying the id,
    name, e-mail and role of the profile, which the backend accepted in
    the state that completed cleanup left: the update comes after the
    last deletion. *)
Theorem resetProfile_success (fuel : nat) (prof : option Profile)
    (rw : ResetWorld G B) :
  fst (resetProfile fuel prof rw) = Done tt ->
  exists (p : Profile) (ids : list string) (pre : list Call)
         (w1 : World G B),
    (prof = Some p /\ pre = []
     \/ prof = None
        /\ load_fixture "profile" (backend (rw_world rw)) = Some p
        /\ pre = [CallFixture "profile"])
    /\ fst (exec_contactMethodsQuery (p_id p) (backend (rw_world rw)))
       = Some ids
    /\ clearContactMethods (p_id p)
         (mkWorld (rng (rw_world rw)) (backend (rw_world rw))
            (log (rw_world rw) ++ pre))
       = (Done tt, w1)
    /\ log w1
       = (log (rw_world rw) ++ pre
          ++ CallContactMethodsQuery (p_id p) :: map delete_call ids)%list
    /\ fst (exec_updateUser (update_input p) (backend w1)) = Some tt
    /\ snd (resetProfile fuel prof rw)
       = mkResetWorld
           (mkWorld (rng w1)
              (snd (exec_updateUser (update_input p) (backend w1)))
              (log w1))
           (rw_updates rw ++ [update_input p]).
Proof.
  destruct fuel as [|f]; [intros H; discriminate H|].
  destruct prof as [p|].
  - intros H.
    destruct (resetProfile_with_profile_done f p rw H)
      as (ids & w1 & Hq & Hclear & Hlog & Hup & Hrun).
    exists p, ids, [], w1. split; [left; split; reflexivity|].
    split; [exact Hq|]. split.
    { rewrite app_nil_r. destruct rw as [[g b l] ups]. exact Hclear. }
    split; [exact Hlog|]. split; [exact Hup | exact Hrun].
  - rewrite (resetProfile_without_profile f rw).
    destruct (load_fixture "profile" (backend (rw_world rw)))
      as [p|] eqn:Hload; [|intros H; discriminate H].
    destruct f as [|f]; [intros H; discriminate H|].
    intros H.
    destruct (resetProfile_with_profile_done f p _ H)
      as (ids & w1 & Hq & Hclear & Hlog & Hup & Hrun).
    cbn [rw_world rw_updates backend log] in Hq, Hclear, Hlog, Hrun.
    exists p, ids, [CallFixture "profile"], w1.
    split; [right; repeat split|].
    split; [exact Hq|]. split; [exact Hclear|]. split.
    { rewrite Hlog. rewrite <- app_assoc. reflexivity. }
    split; [exact Hup | exact Hrun].
Qed.

(** X15: [resetProfile] issues at most one [updateUser], for the
    profile it was given or the one of the fixture, and only after the
    cleanup of that profile's contact methods has completed; a run in
    which the cleanup does not complete issues no update and does not
    succeed. *)
Theorem resetProfile_updates_after_cleanup (fuel : nat)
    (prof : option Profile) (rw : ResetWorld G B) :
  (rw_updates (snd (resetProfile fuel prof rw)) = rw_updates rw
   /\ fst (resetProfile fuel prof rw) <> Done tt)
  \/ exists (p : Profile) (w0 w1 : World G B),
       rw_updates (snd (resetProfile fuel prof rw))
       = (rw_updates rw ++ [update_input p])%list
       /\ (prof = Some p
           \/ prof = None
              /\ load_fixture "profile" (backend (rw_world rw)) = Some p)
       /\ backend w0 = backend (rw_world rw)
       /\ clearContactMethods (p_id p) w0 = (Done tt, w1)
       /\ backend (rw_world (snd (resetProfile fuel prof rw)))
          = snd (exec_updateUser (update_input p) (backend w1)).
Proof.
  assert (Hsome : forall f p (rw0 : ResetWorld G B),
            (rw_updates (snd (resetProfile (S f) (Some p) rw0))
             = rw_updates rw0
             /\ fst (resetProfile (S f) (Some p) rw0) <> Done tt)
            \/ exists w1,
                 rw_updates (snd (resetProfile (S f) (Some p) rw0))
                 = (rw_updates rw0 ++ [update_input p])%list
                 /\ clearContactMethods (p_id p) (rw_world rw0)
                    = (Done tt, w1)
                 /\ backend (rw_world (snd (resetProfile (S f) (Some p) rw0)))
                    = snd (exec_updateUser (update_input p) (backend w1))).
  { intros f p rw0. rewrite resetProfile_with_profile.
    destruct (clearContactMethods (p_id p) (rw_world rw0))
      as [[[]|e|] w'] eqn:E.
    - right. exists w'. unfold cy_graphql2_updateUser.
      cbn [rw_world rw_updates].
      destruct (fst (exec_updateUser (update_input p) (backend w')));
        repeat split.
    - left. split; [reflexivity | discriminate].
    - left. split; [reflexivity | discriminate]. }
  destruct fuel as [|f]; [left; split; [reflexivity | discriminate]|].
  destruct prof as [p|].
  - destruct (Hsome f p rw) as [Hleft | (w1 & Hup & Hclear & Hb)];
      [left; exact Hleft|].
    right. exists p, (rw_world rw), w1.
    split; [exact Hup|]. split; [left; reflexivity|].
    split; [reflexivity|]. split; [exact Hclear | exact Hb].
  - rewrite (resetProfile_without_profile f rw).
    destruct (load_fixture "profile" (backend (rw_world rw)))
      as [p|] eqn:Hload;
      [|left; split; [reflexivity | discriminate]].
    destruct f as [|f]; [left; split; [reflexivity | discriminate]|].
    match goal with
    | |- context [resetProfile (S f) (Some p) ?rw1] =>
        destruct (Hsome f p rw1) as [Hleft | (w1 & Hup & Hclear & Hb)]
    end; [left; exact Hleft|].
    right. eexists p, _, w1.
    split; [exact Hup|]. split; [right; split; reflexivity|].
    split; [|split; [exact Hclear | exact Hb]]. reflexivity.
Qed.

End ResetRuns.

(* ===================================================================== *)
(** ** The mock services list *)
(* ===================================================================== *)

Section MockServicesProperties.

Context {G : Type} {CH : Chance G} {CT : ChanceText G}.

Lemma push_times_length (n : nat) (body : G -> MockService * G) :
  forall (acc : list MockService) (g : G),
    List.length (fst (push_times n body acc g)) = (List.length acc + n)%nat.
Proof.
  induction n as [|n IH]; intros acc g; cbn [push_times].
  - cbn [fst]. lia.
  - rewrite IH, length_app. cbn [List.length]. lia.
Qed.

Lemma push_times_Forall (P : MockService -> Prop) (n : nat)
    (body : G -> MockService * G) :
  (forall g, P (fst (body g))) ->
  forall (acc : list MockService) (g : G),
    Forall P acc -> Forall P (fst (push_times n body acc g)).
Proof.
  intros Hbody. induction n as [|n IH]; intros acc g Hacc; cbn [push_times].
  - exact Hacc.
  - apply IH. apply Forall_app. split; [exact Hacc|].
    constructor; [apply Hbody | constructor].
Qed.

(** X16: whatever the generator gives, the page has four cards headed
    by the three label keys and ["No Labels"], with 5, 3, 4 and 5
    items; every service of the first three cards carries the label key
    of its card, no service of the last card has a label, and an item
    shows a chip exactly when it is not under ["No Labels"]. *)
Theorem mock_services_groups (g : G) :
  let d := fst (mock_services g) in
  map fst (rendered_groups d)
  = [labelKey1; labelKey2; labelKey3; "No Labels"]
  /\ map (fun card => List.length (snd card)) (rendered_groups d)
     = [5; 3; 4; 5]%nat
  /\ Forall (fun s => exists v, svc_label s = Some (mkServiceLabel labelKey1 v))
       (services1 d)
  /\ Forall (fun s => exists v, svc_label s = Some (mkServiceLabel labelKey2 v))
       (services2 d)
  /\ Forall (fun s => exists v, svc_label s = Some (mkServiceLabel labelKey3 v))
       (services3 d)
  /\ Forall (fun s => svc_label s = None) (services4 d)
  /\ forall heading items,
       In (heading, items) (rendered_groups d) ->
       Forall (fun it => item_chip it = None <-> heading = "No Labels") items.
Proof.
  intros d.
  assert (H1 : Forall (fun s => exists v,
                         svc_label s = Some (mkServiceLabel labelKey1 v))
                 (services1 d)).
  { apply push_times_Forall; [|constructor]. intros g0. eexists. reflexivity. }
  assert (H2 : Forall (fun s => exists v,
                         svc_label s = Some (mkServiceLabel labelKey2 v))
                 (services2 d)).
  { apply push_times_Forall; [|constructor]. intros g0. eexists. reflexivity. }
  assert (H3 : Forall (fun s => exists v,
                         svc_label s = Some (mkServiceLabel labelKey3 v))
                 (services3 d)).
  { apply push_times_Forall; [|constructor]. intros g0. eexists. reflexivity. }
  assert (H4 : Forall (fun s => svc_label s = None) (services4 d)).
  { apply push_times_Forall; [|constructor]. intros g0. reflexivity. }
  split; [reflexivity|]. split.
  { cbn [rendered_groups map snd]. rewrite !length_map.
    unfold d, mock_services. cbn [fst services1 services2 services3 services4].
    rewrite !push_times_length. reflexivity. }
  split; [exact H1|]. split; [exact H2|]. split; [exact H3|].
  split; [exact H4|].
  assert (Hchip : forall key l,
            key <> "No Labels" ->
            Forall (fun s => exists v,
                      svc_label s = Some (mkServiceLabel key v)) l ->
            Forall (fun it => item_chip it = None <-> key = "No Labels")
              (map list_item l)).
  { intros key l Hkey Hl. rewrite Forall_map.
    eapply Forall_impl; [|exact Hl].
    intros s (v & Hs). unfold list_item. rewrite Hs. cbn [item_chip].
    split; [intros E; discriminate E | intros E; contradiction]. }
  clearbody d.
  intros heading items Hin. cbn [rendered_groups In] in Hin.
  destruct Hin as [E | [E | [E | [E | []]]]]; injection E as <- <-.
  - apply Hchip; [discriminate | exact H1].
  - apply Hchip; [discriminate | exact H2].
  - apply Hchip; [discriminate | exact H3].
  - rewrite Forall_map. eapply Forall_impl; [|exact H4].
    intros s Hs. unfold list_item. rewrite Hs. cbn [item_chip].
    split; reflexivity.
Qed.

Lemma mock_label_value_length {CL : ChanceLaws G} {CTL : ChanceTextLaws G}
    (g : G) :
  (4 <= String.length (fst (mock_label_value g)) <= 7)%nat.
Proof.
  unfold mock_label_value. cbn zeta. rewrite chance_word_length.
  pose proof (chance_integer_range 4 7 g ltac:(lia)) as Hr. lia.
Qed.

(** X17: given the generator's contract (an integer drawn from a range
    lies in it, a word asked for with a length has it), every label
    value on the page has between 4 and 7 characters. *)
Theorem mock_label_values_bounded {CL : ChanceLaws G}
    {CTL : ChanceTextLaws G} (g : G) (s : MockService) (l : ServiceLabel) :
  In s (services1 (fst (mock_services g))
        ++ services2 (fst (mock_services g))
        ++ services3 (fst (mock_services g))
        ++ services4 (fst (mock_services g)))%list ->
  svc_label s = Some l ->
  (4 <= String.length (label_value l) <= 7)%nat.
Proof.
  intros Hin Hl.
  assert (Hbody : forall key g0,
            (fun s0 => forall l0, svc_label s0 = Some l0 ->
               (4 <= String.length (label_value l0) <= 7)%nat)
              (fst (labelled_service key g0))).
  { intros key g0 l0 E. cbn in E. inversion E; subst l0.
    cbn [label_value]. apply mock_label_value_length. }
  assert (Hall : Forall (fun s0 => forall l0, svc_label s0 = Some l0 ->
                           (4 <= String.length (label_value l0) <= 7)%nat)
                   (services1 (fst (mock_services g))
                    ++ services2 (fst (mock_services g))
                    ++ services3 (fst (mock_services g))
                    ++ services4 (fst (mock_services g)))%list).
  { apply Forall_app; split;
      [|apply Forall_app; split; [|apply Forall_app; split]];
      (apply push_times_Forall; [|constructor]);
      try (intros g0; apply Hbody).
    intros g0 l0 E. discriminate E. }
  rewrite Forall_forall in Hall. exact (Hall s Hin l Hl).
Qed.

End MockServicesProperties.

(* ===================================================================== *)
(** ** Further runs on concrete inputs *)
(* ===================================================================== *)

Lemma counter_letters_length (n : nat) :
  forall k, String.length (CounterChance.letters n k) = n.
Proof.
  induction n as [|n IH]; intros k; cbn [CounterChance.letters String.length].
  - reflexivity.
  - rewrite IH. reflexivity.
Qed.

Lemma counter_chance_text_laws : ChanceTextLaws Z.
Proof.
  split. intros n cap g.
  cbn [chance_word_with counter_chance_text].
  unfold CounterChanceText.word_with. cbn [fst].
  apply counter_letters_length.
Qed.

Lemma addContactMethod_stamps_userID_witness :
  exists c,
    fst (addContactMethod 2 None (demo_world 5)) = Done c
    /\ resolved_contact_userID None (demo_world 5) = Some (cm_userID c).
Proof.
  eexists. split; [vm_compute; reflexivity|].
  refine (proj1 (addContactMethod_stamps_userID 2 None (demo_world 5) _ _)).
  vm_compute. reflexivity.
Defined.

Lemma addContactMethod_passes_options_witness :
  exists calls,
    log (snd (addContactMethod 2
                (Some (mkContactMethodOptions None (Some "home") (Some SMS)
                         None))
                (demo_world 5))) = calls
    /\ forall i, In (CallCreateUserContactMethod i) calls ->
       cmi_name i = "home" /\ cmi_type i = SMS.
Proof.
  destruct (addContactMethod_passes_options 2
              (Some (mkContactMethodOptions None (Some "home") (Some SMS)
                       None))
              (demo_world 5))
    as (calls & Hlog & Hcalls).
  exists calls. split; [exact Hlog|].
  intros i Hin. destruct (Hcalls i Hin) as (Hname & _ & Htype & _).
  split; [apply Hname; [reflexivity | discriminate] | apply Htype; reflexivity].
Defined.

Lemma addContactMethod_always_draws_phone_witness :
  rng (snd (addContactMethod 1
              (Some (mkContactMethodOptions (Some "u1") (Some "home")
                       (Some SMS) (Some "+15550100")))
              (demo_world 5))) = 6.
Proof.
  refine (proj2 (addContactMethod_always_draws_phone
                   (mkContactMethodOptions (Some "u1") (Some "home")
                      (Some SMS) (Some "+15550100"))
                   "u1" "home" "+15550100" SMS (demo_world 5) 0 _ _ _ _));
    reflexivity.
Defined.

Lemma supplied_userID_skips_fixture_witness :
  exists calls,
    log (snd (addNotificationRule 3
                (Some (mkNotificationRuleOptions (Some "u1") None None None))
                (demo_world 5))) = calls
    /\ forall name, ~ In (CallFixture name) calls.
Proof.
  assert (Hne : "u1" <> "") by discriminate.
  destruct (proj2 (supplied_userID_skips_fixture (G := Z) (B := Store.t)
                     "u1" Hne)
              3%nat (mkNotificationRuleOptions (Some "u1") None None None)
              (demo_world 5) eq_refl)
    as (calls & Hlog & Hnone).
  exists calls. split; [exact Hlog | exact Hnone].
Defined.

Lemma addNotificationRule_delay_sent_witness :
  log (snd (addNotificationRule 1
              (Some (mkNotificationRuleOptions
                       (Some "profile-id") (Some 0) (Some "cm-1") None))
              (world_with_contactMethod 7)))
  = [CallCreateUserNotificationRule
       (mkCreateUserNotificationRuleInput "profile-id" "cm-1" 7)]
  /\ exists calls,
       log (snd (addNotificationRule 3
                   (Some (mkNotificationRuleOptions None (Some 10) None None))
                   (demo_world 5))) = calls
       /\ forall i, In (CallCreateUserNotificationRule i) calls ->
          nri_delayMinutes i = 10.
Proof.
  split.
  - refine (proj1 (proj2 (addNotificationRule_delay_sent
                            (CL := counter_chance_laws) 0 None
                            (world_with_contactMethod 7))
                     (mkNotificationRuleOptions
                        (Some "profile-id") (Some 0) (Some "cm-1") None)
                     "profile-id" "cm-1" 0%nat _ _ _)).
    + reflexivity.
    + reflexivity.
    + right. reflexivity.
  - destruct (proj1 (addNotificationRule_delay_sent
                       (CL := counter_chance_laws) 3
                       (Some (mkNotificationRuleOptions None (Some 10) None
                                None))
                       (demo_world 5)))
      as (calls & Hlog & Hcalls).
    exists calls. split; [exact Hlog|].
    intros i Hin. destruct (Hcalls i Hin) as [Hd _].
    apply Hd; [reflexivity | discriminate].
Defined.

Lemma addNotificationRule_passes_nested_options_witness :
  exists calls,
    log (snd (addNotificationRule 3
                (Some (mkNotificationRuleOptions None None None
                         (Some (mkContactMethodOptions None (Some "home")
                                  (Some SMS) None))))
                (demo_world 5))) = calls
    /\ forall j, In (CallCreateUserContactMethod j) calls ->
       cmi_name j = "home" /\ cmi_type j = SMS.
Proof.
  destruct (addNotificationRule_passes_nested_options 3
              (Some (mkNotificationRuleOptions None None None
                       (Some (mkContactMethodOptions None (Some "home")
                                (Some SMS) None))))
              (demo_world 5))
    as (calls & Hlog & Hcalls).
  exists calls. split; [exact Hlog|].
  intros j Hin. destruct (Hcalls j Hin) as (Hname & _ & Htype & _).
  split; [apply Hname; [reflexivity | discriminate] | apply Htype; reflexivity].
Defined.

Lemma addNotificationRule_references_created_contactMethod_witness :
  exists j : CreateUserContactMethodInput, cmi_userID j = "profile-id".
Proof.
  destruct (addNotificationRule_references_created_contactMethod
              (mkNotificationRuleOptions (Some "profile-id") None None None)
              "profile-id" (demo_world 5) 0 eq_refl eq_refl)
    as (j & Hj & _).
  exists j. exact Hj.
Defined.

Lemma addNotificationRule_stops_on_failed_contactMethod_witness :
  fst (addNotificationRule 2
         (Some (mkNotificationRuleOptions (Some "u1") None None None))
         (offline_world 0))
  = Failed RemoteError.
Proof.
  refine (proj1 (addNotificationRule_stops_on_failed_contactMethod
                   (mkNotificationRuleOptions (Some "u1") None None None)
                   "u1" (offline_world 0) 0 _ _ _)).
  - reflexivity.
  - reflexivity.
  - intros j. reflexivity.
Defined.

Lemma missing_fixture_fails_before_any_mutation_witness :
  addNotificationRule 3 None (offline_world 0)
  = (Failed FixtureLoadError, mkWorld 0 tt [CallFixture "profile"]).
Proof.
  refine (proj2 (missing_fixture_fails_before_any_mutation
                   (offline_world 0) 2 _) None _); reflexivity.
Defined.

Lemma createManyUsers_profiles_from_generator_witness :
  exists ps,
    log (snd (createManyUsers [emptyUserOptions] (demo_world 0)))
    = [CallSql (insert_users_query ps)]
    /\ log (snd (createManyUsers [emptyUserOptions] (db_down_world 0)))
       = [CallSql (insert_users_query ps)].
Proof.
  destruct (createManyUsers_profiles_from_generator [emptyUserOptions]
              (demo_world 0) (db_down_world 0) eq_refl)
    as (ps & H1 & H2 & _).
  exists ps. split; [exact H1 | exact H2].
Defined.

Lemma resetProfile_success_witness :
  exists p ids,
    load_fixture "profile" (backend (world_with_contactMethod 0)) = Some p
    /\ fst (exec_contactMethodsQuery (p_id p)
              (backend (world_with_contactMethod 0))) = Some ids
    /\ rw_updates
         (snd (resetProfile 2 None
                 (mkResetWorld (world_with_contactMethod 0) [])))
       = [update_input p].
Proof.
  destruct (resetProfile_success 2 None
              (mkResetWorld (world_with_contactMethod 0) []))
    as (p & ids & pre & w1 & Hsubject & Hq & _ & _ & _ & Hrun).
  - vm_compute. reflexivity.
  - destruct Hsubject as [[Habs _] | (_ & Hload & _)]; [discriminate Habs|].
    exists p, ids. split; [exact Hload|]. split; [exact Hq|].
    rewrite Hrun. reflexivity.
Defined.

Lemma mock_label_values_bounded_witness :
  (4 <= String.length "efghijk" <= 7)%nat.
Proof.
  refine (mock_label_values_bounded (CL := counter_chance_laws)
            (CTL := counter_chance_text_laws) 0
            (mkMockService "abcde bcdef" "cdefgh ijkl."
               (Some (mkServiceLabel "Measurement" "efghijk")))
            (mkServiceLabel "Measurement" "efghijk") _ _).
  - vm_compute. left. reflexivity.
  - reflexivity.
Defined.
